(** * InsightPrep: the question-bank inspection scripts

    A shallow embedding of the four diagnostic scripts of the repository
    ([check_db.py], [debug_question.py], [Golden/Golden 24/check_leadership_db.py]
    and [Golden/Golden 24/search_question.py]) together with the part of
    Python's [os] and [sqlite3] modules they call, and the properties of the
    scripts stated by the specification of the Inspector.

    Layout:
    - [Py]      Python strings and the values that cross the sqlite3 boundary;
    - [Sql]     the bank (tables and rows) and the SELECT statements the
                scripts issue, with their evaluation;
    - [Runtime] the world a script runs in (file system, connection, cursor,
                standard output) and the state-and-exception monad of a run;
    - [Scripts] the four scripts, statement by statement;
    - [Props]   the notions the statements are written with, and the banks
                used as examples;
    - the theorems: the storage layer first, then the scripts.

    What the model covers, and what it leaves out:
    - values are NULL, INTEGER and TEXT; REAL and BLOB are left out, and a
      TEXT is a sequence of code points, so that a TEXT whose bytes are not
      UTF-8 (which sqlite3 cannot hand to Python) does not occur;
    - the collating sequence of a column (BINARY, NOCASE or RTRIM) is
      applied where the scripts compare TEXT columns, in DISTINCT and
      GROUP BY, and in ORDER BY; the [=] of a WHERE clause compares values as
      they are stored, without type affinity and without collation, which
      is how SQLite compares the integer ids the scripts apply it to;
    - a statement visits the rows of its table in storage order.  SQLite
      does so on a table without index (see [unindexed]); with an index the
      order of a result without ORDER BY is the choice of the query planner,
      and what is stated about such an order assumes a table without index;
    - a database is held in the file system by its content, as a session
      reads it: the bytes of the file, and the rollback journal or
      write-ahead log SQLite keeps beside it, are not told apart from it
      (a session that only reads may still bring them back into the file);
    - views and triggers, locks held by other processes, and failures of
      the disk and of the console (every string can be printed) are left
      out.
    The file system is a finite map from paths to what they name; whether a
    missing file can be created at a path is a property of the world. *)

From Stdlib Require Import ZArith NArith List Bool Lia Sorted.
From Stdlib Require Import Ascii String DecimalString.
From stdpp Require Import base option list gmap.

Local Open Scope Z_scope.
Local Open Scope list_scope.

(* ===================================================================== *)
(** * Python strings and values *)
(* ===================================================================== *)

Module Py.

(** A Python 3 [str] is a sequence of Unicode code points.  The same type
    serves for SQL identifiers, TEXT values and file-system paths. *)
Abbreviation str := (list N).

(** A string literal of the source (ASCII) as a [str]. *)
Definition U (s : string) : str := map N_of_ascii (list_ascii_of_string s).

Definition newline : N := 10%N.

(** The values sqlite3 hands to Python and accepts as bound parameters:
    [None] for NULL, [int] for INTEGER, [str] for TEXT.  REAL (a float) and
    BLOB ([bytes]) are outside the model. *)
Inductive value :=
| VNull
| VInt (n : Z)
| VText (s : str).

#[global] Instance value_eq_dec : EqDecision value.
Proof. solve_decision. Defined.

Definition value_eqb (a b : value) : bool := bool_decide (a = b).

(** A row is a Python tuple of values. *)
Abbreviation row := (list value).

(** Truth value of an object in a condition ([if is_correct]). *)
Definition truthy (v : value) : bool :=
  match v with
  | VNull => false
  | VInt n => negb (n =? 0)
  | VText s => negb (bool_decide (s = []))
  end.

(** [x[:n]] on a value: a [str] is sliced by code points; [None] and [int]
    are not subscriptable. *)
Definition slice_to (n : nat) (v : value) : option value :=
  match v with
  | VText s => Some (VText (take n s))
  | VNull | VInt _ => None
  end.

(** [t[i]] on a row that has index [i]; rows returned by a query always
    have the indexes the scripts use. *)
Definition item (i : nat) (r : row) : value := nth i r VNull.

(** UTF-8, the encoding of TEXT in the bank and of the console. *)
Definition utf8_char (c : N) : list N :=
  (if c <? 128 then [c]
   else if c <? 2048 then [192 + c / 64; 128 + c mod 64]
   else if c <? 65536 then [224 + c / 4096; 128 + (c / 64) mod 64; 128 + c mod 64]
   else [240 + c / 262144; 128 + (c / 4096) mod 64; 128 + (c / 64) mod 64;
         128 + c mod 64])%N.

Definition utf8 (s : str) : list N := concat (map utf8_char s).

(** [dict(pairs)]: insertion order of the first occurrence of a key, value
    of its last occurrence. *)
Fixpoint dict_set {V} (k : str) (v : V) (d : list (str * V)) : list (str * V) :=
  match d with
  | [] => [(k, v)]
  | (k', v') :: d' =>
      if bool_decide (k' = k) then (k', v) :: d' else (k', v') :: dict_set k v d'
  end.

Definition dict {V} (pairs : list (str * V)) : list (str * V) :=
  fold_left (fun d kv => dict_set (fst kv) (snd kv) d) pairs [].

(** [zip(a, b)] of two sequences: stops at the shorter one. *)
Fixpoint zip {A B} (a : list A) (b : list B) : list (A * B) :=
  match a, b with
  | x :: a', y :: b' => (x, y) :: zip a' b'
  | _, _ => []
  end.

End Py.
Import Py.

(* ===================================================================== *)
(** * The bank and its queries *)
(* ===================================================================== *)

Module Sql.

(** ** Storage *)

(** The collating sequences SQLite has built in.  A column declared
    without COLLATE has BINARY. *)
Inductive collation :=
| Binary
| NoCase
| RTrim.

(** A table as SQLite holds it: its entry in the schema table (name, root
    page, the text of its CREATE statement), its columns with the collating
    sequence each was declared with (BINARY for a column past the end of
    [t_collations]), and its rows in storage (rowid) order.  A row has one
    value per column. *)
Record table := Table {
  t_name : str;
  t_rootpage : Z;
  t_sql : value;
  t_columns : list str;
  t_collations : list collation;
  t_rows : list row
}.

Definition collation_of (t : table) (i : nat) : collation :=
  nth i (t_collations t) Binary.

(** The schema also lists indexes, those of CREATE INDEX and those SQLite
    makes by itself for a UNIQUE or PRIMARY KEY constraint; they hold no rows
    of their own. *)
Record index := Index {
  i_name : str;
  i_table : str;
  i_rootpage : Z;
  i_sql : value
}.

Inductive schema_object :=
| ObjTable (t : table)
| ObjIndex (i : index).

(** A database file: its schema objects in the order of [sqlite_master]. *)
Abbreviation database := (list schema_object).

(** ** Errors of the storage layer *)

Inductive op_error :=
| UnableToOpen
| NoSuchTable (name : str)
| NoSuchColumn (name : str).

(** ** Names *)

(** SQLite compares identifiers without regard to ASCII case. *)
Definition fold_case (c : N) : N :=
  if ((65 <=? c) && (c <=? 90))%N then (c + 32)%N else c.

Definition name_eqb (a b : str) : bool :=
  bool_decide (map fold_case a = map fold_case b).

Fixpoint col_index (cols : list str) (c : str) : option nat :=
  match cols with
  | [] => None
  | x :: cols' =>
      if name_eqb x c then Some 0%nat else S <$> col_index cols' c
  end.

(** The rows of [sqlite_master]:
    [(type, name, tbl_name, rootpage, sql)]. *)
Definition master_row (o : schema_object) : row :=
  match o with
  | ObjTable t =>
      [VText (U "table"); VText (t_name t); VText (t_name t);
       VInt (t_rootpage t); t_sql t]
  | ObjIndex i =>
      [VText (U "index"); VText (i_name i); VText (i_table i);
       VInt (i_rootpage i); i_sql i]
  end.

Definition sqlite_master (db : database) : table :=
  {| t_name := U "sqlite_master";
     t_rootpage := 1;
     t_sql := VNull;
     t_columns := [U "type"; U "name"; U "tbl_name"; U "rootpage"; U "sql"];
     t_collations := [];
     t_rows := map master_row db |}.

Fixpoint find_user_table (db : database) (name : str) : option table :=
  match db with
  | [] => None
  | ObjTable t :: db' =>
      if name_eqb (t_name t) name then Some t else find_user_table db' name
  | ObjIndex _ :: db' => find_user_table db' name
  end.

Definition find_table (db : database) (name : str) : option table :=
  if name_eqb name (U "sqlite_master") then Some (sqlite_master db)
  else find_user_table db name.

(** The indexes of a table.  A table is [unindexed] when it has none: its
    rows can then only be reached by a scan in storage order. *)
Fixpoint indexes_on (db : database) (name : str) : list index :=
  match db with
  | [] => []
  | ObjIndex i :: db' =>
      if name_eqb (i_table i) name then i :: indexes_on db' name
      else indexes_on db' name
  | ObjTable _ :: db' => indexes_on db' name
  end.

Definition unindexed (db : database) (name : str) : Prop :=
  indexes_on db name = [].

(** ** Collating sequences *)

(** NOCASE folds the 26 upper-case letters of ASCII; RTRIM leaves out the
    spaces at the end. *)
Fixpoint rtrim (s : str) : str :=
  match s with
  | [] => []
  | c :: s' =>
      match rtrim s' with
      | [] => if (c =? 32)%N then [] else [c]
      | rest => c :: rest
      end
  end.

Definition collate (c : collation) (s : str) : str :=
  match c with
  | Binary => s
  | NoCase => map fold_case s
  | RTrim => rtrim s
  end.

(** What a value is compared by under a collating sequence: a TEXT by its
    collated form, NULL and INTEGER by themselves. *)
Definition collated (c : collation) (v : value) : value :=
  match v with
  | VText s => VText (collate c s)
  | VNull | VInt _ => v
  end.

(** A result row, each column under its own collating sequence. *)
Definition collated_row (cs : list collation) (r : row) : row :=
  zip_with collated cs r.

(** ** Ordering of values *)

(** NULL sorts first, then INTEGER by value, then TEXT by its bytes, which
    for UTF-8 is the order of the code points. *)
Fixpoint str_leb (a b : str) : bool :=
  match a, b with
  | [], _ => true
  | _ :: _, [] => false
  | x :: a', y :: b' =>
      if (x <? y)%N then true else if (y <? x)%N then false else str_leb a' b'
  end.

Definition value_leb (a b : value) : bool :=
  match a, b with
  | VNull, _ => true
  | VInt _, VNull => false
  | VInt x, VInt y => x <=? y
  | VInt _, VText _ => true
  | VText s, VText t => str_leb s t
  | VText _, _ => false
  end.

(** The sorter: a stable insertion sort on the key of each element. *)
Fixpoint insert_by {A} (key : A -> value) (r : A) (l : list A) : list A :=
  match l with
  | [] => [r]
  | x :: l' =>
      if value_leb (key r) (key x) then r :: l else x :: insert_by key r l'
  end.

Definition sort_by {A} (key : A -> value) (l : list A) : list A :=
  foldr (insert_by key) [] l.

(** ** Expressions of a WHERE clause *)

(** The three forms the scripts use.  [EEq c v] is [c = v] for a literal or
    bound parameter [v].  [ELike c p] is [c LIKE "p"]: the pattern is written
    in double quotes, which SQLite reads as the column [p] when the table has
    one and as the string ['p'] otherwise. *)
Inductive expr :=
| EEq (c : str) (v : value)
| ELike (c : str) (p : str)
| EOr (a b : expr).

(** After name resolution, columns are positions in the row. *)
Inductive pattern_operand :=
| PatColumn (i : nat)
| PatLiteral (p : str).

Inductive cexpr :=
| CEq (i : nat) (v : value)
| CLike (i : nat) (p : pattern_operand)
| COr (a b : cexpr).

Fixpoint resolve (cols : list str) (e : expr) : op_error + cexpr :=
  match e with
  | EEq c v =>
      match col_index cols c with
      | Some i => inr (CEq i v)
      | None => inl (NoSuchColumn c)
      end
  | ELike c p =>
      match col_index cols c with
      | Some i =>
          inr (CLike i match col_index cols p with
                       | Some j => PatColumn j
                       | None => PatLiteral p
                       end)
      | None => inl (NoSuchColumn c)
      end
  | EOr a b =>
      match resolve cols a with
      | inl e => inl e
      | inr a' =>
          match resolve cols b with
          | inl e => inl e
          | inr b' => inr (COr a' b')
          end
      end
  end.

(** [LIKE]: [%] matches any run of characters, [_] any one character, any
    other character matches itself without regard to ASCII case. *)
Fixpoint like (pat txt : str) : bool :=
  match pat with
  | [] => match txt with [] => true | _ => false end
  | c :: pat' =>
      if (c =? 37)%N then
        (fix skip (t : str) : bool :=
           like pat' t || match t with [] => false | _ :: t' => skip t' end) txt
      else
        match txt with
        | [] => false
        | d :: txt' =>
            ((c =? 95)%N || (fold_case c =? fold_case d)%N) && like pat' txt'
        end
  end.

(** The text of a value as an operand of [LIKE]; NULL has none. *)
Definition text_of (v : value) : option str :=
  match v with
  | VNull => None
  | VInt n => Some (U (NilZero.string_of_int (Z.to_int n)))
  | VText s => Some s
  end.

(** Three-valued logic: [None] is NULL.  A comparison with NULL is NULL;
    an INTEGER and a TEXT are never equal.  [=] compares the two values as
    they are: the scripts apply it to the integer ids ([id], [question_id])
    and to the [type] of the schema table, where neither the affinity nor
    the collating sequence of the column changes the outcome; a column that
    holds its ids as TEXT is outside the model. *)
Definition or3 (a b : option bool) : option bool :=
  match a, b with
  | Some true, _ | _, Some true => Some true
  | Some false, Some false => Some false
  | _, _ => None
  end.

Fixpoint eval (e : cexpr) (r : row) : option bool :=
  match e with
  | CEq i v =>
      match item i r, v with
      | VNull, _ | _, VNull => None
      | x, y => Some (value_eqb x y)
      end
  | CLike i p =>
      let pat := match p with
                 | PatColumn j => text_of (item j r)
                 | PatLiteral s => Some s
                 end in
      match pat, text_of (item i r) with
      | Some p', Some t => Some (like p' t)
      | _, _ => None
      end
  | COr a b => or3 (eval a r) (eval b r)
  end.

(** A row passes the WHERE clause when the expression is true (not false,
    not NULL). *)
Definition holds (e : cexpr) (r : row) : bool :=
  match eval e r with Some true => true | _ => false end.

(** ** SELECT statements *)

Inductive result_column :=
| All                 (* [*] *)
| Col (c : str)       (* a column *)
| CountAll.           (* [COUNT( * )] *)

Record select := Select {
  distinct : bool;
  columns : list result_column;
  from : str;
  where_ : option expr;
  group_by : option str;
  order_by : option str;
  limit : option nat
}.

(** A resolved result column. *)
Inductive proj :=
| PCol (i : nat)
| PCount.

Definition and_then {A B} (x : op_error + A) (k : A -> op_error + B)
  : op_error + B :=
  match x with
  | inl e => inl e
  | inr a => k a
  end.

Notation "'check' x <- c 'in' k" := (and_then c (fun x => k))
  (at level 10, x name, c at level 100, k at level 200).

Fixpoint resolve_columns (cols : list str) (rcs : list result_column)
  : op_error + list proj :=
  match rcs with
  | [] => inr []
  | rc :: rcs' =>
      check ps <-
        match rc with
        | All => inr (map PCol (seq 0 (length cols)))
        | Col c =>
            match col_index cols c with
            | Some i => inr [PCol i]
            | None => inl (NoSuchColumn c)
            end
        | CountAll => inr [PCount]
        end in
      check ps' <- resolve_columns cols rcs' in
      inr (ps ++ ps')
  end.

Definition resolve_where (cols : list str) (w : option expr)
  : op_error + option cexpr :=
  match w with
  | None => inr None
  | Some e => check e' <- resolve cols e in inr (Some e')
  end.

Definition resolve_column (cols : list str) (c : option str)
  : op_error + option nat :=
  match c with
  | None => inr None
  | Some c =>
      match col_index cols c with
      | Some i => inr (Some i)
      | None => inl (NoSuchColumn c)
      end
  end.

(** The name of a result column, as [cursor.description] reports it. *)
Definition describe (cols : list str) (p : proj) : str :=
  match p with
  | PCol i => nth i cols []
  | PCount => U "COUNT" ++ [40; 42; 41]%N
  end.

Definition selected (w : option cexpr) (rows : list row) : list row :=
  match w with
  | None => rows
  | Some e => filter (fun r => holds e r = true) rows
  end.

(** Runs of rows with equal keys, for rows already sorted on the key. *)
Fixpoint runs (key : row -> value) (l : list row) : list (list row) :=
  match l with
  | [] => []
  | r :: l' =>
      match runs key l' with
      | (x :: g) :: gs =>
          if value_eqb (key r) (key x) then (r :: x :: g) :: gs
          else [r] :: (x :: g) :: gs
      | gs => [r] :: gs
      end
  end.

Definition is_count (p : proj) : bool :=
  match p with PCount => true | PCol _ => false end.

(** The value of column [i] of a row, as the collating sequence of the
    column has it compared. *)
Definition sort_key (cs : list collation) (i : nat) (r : row) : value :=
  collated (nth i cs Binary) (item i r).

(** The groups a statement reports on, one result row each: the runs of
    the rows sorted on the GROUP BY column, under the collating sequence of
    that column; without GROUP BY, all the rows together when the statement
    counts, and every row by itself when it does not. *)
Definition groups (cs : list collation) (g : option nat) (ps : list proj)
    (rows : list row) : list (list row) :=
  match g with
  | Some i => runs (sort_key cs i) (sort_by (sort_key cs i) rows)
  | None =>
      if existsb is_count ps then [rows] else map (fun r => [r]) rows
  end.

(** ORDER BY sorts the groups on the column's value in their first row,
    under the collating sequence of the column. *)
Definition ordered (cs : list collation) (o : option nat)
    (gs : list (list row)) : list (list row) :=
  match o with
  | None => gs
  | Some i => sort_by (fun g => sort_key cs i (hd [] g)) gs
  end.

(** One result row per group.  A column of a group is read in its first
    row (SQLite reads it in one row of the group, which one is not settled;
    the rows of a group differ in the GROUP BY column at most by what its
    collating sequence leaves aside). *)
Definition project (ps : list proj) (g : list row) : row :=
  map (fun p => match p with
                | PCol i => item i (hd [] g)
                | PCount => VInt (Z.of_nat (length g))
                end) ps.

(** The collating sequence of a result column: that of the column it
    reads, BINARY for a count. *)
Definition proj_collation (cs : list collation) (p : proj) : collation :=
  match p with
  | PCol i => nth i cs Binary
  | PCount => Binary
  end.

(** DISTINCT keeps the first occurrence of each result row, two rows being
    the same when they are equal under [key] (the collating sequences of the
    result columns). *)
Fixpoint distinct_rows (key : row -> row) (l : list row) : list row :=
  match l with
  | [] => []
  | r :: l' => r :: filter (fun x => key x <> key r) (distinct_rows key l')
  end.

Definition limited (n : option nat) (l : list row) : list row :=
  match n with
  | None => l
  | Some n => take n l
  end.

(** The outcome of a statement on a database: the names of the result
    columns and the result rows, or the error of name resolution.

    The rows of the table are visited in storage order.  That is the order
    of SQLite on an [unindexed] table.  Where the table has an index SQLite
    may visit the rows in the order of the index instead: of a result
    without ORDER BY, only what does not depend on the order in which the
    rows are visited then carries over to SQLite. *)
Definition run_select (db : database) (q : select)
  : op_error + (list str * list row) :=
  match find_table db (from q) with
  | None => inl (NoSuchTable (from q))
  | Some t =>
      let cols := t_columns t in
      let cs := t_collations t in
      check ps <- resolve_columns cols (columns q) in
      check w <- resolve_where cols (where_ q) in
      check g <- resolve_column cols (group_by q) in
      check o <- resolve_column cols (order_by q) in
      let rows := map (project ps)
                      (ordered cs o (groups cs g ps (selected w (t_rows t)))) in
      inr (map (describe cols) ps,
           limited (limit q)
             (if distinct q
              then distinct_rows (collated_row (map (proj_collation cs) ps)) rows
              else rows))
  end.

End Sql.
Import Sql.

(* ===================================================================== *)
(** * The world of a run *)
(* ===================================================================== *)

Module Runtime.

(** What a path of the file system names.  [DbFile db] is an SQLite
    database, held by its content [db] as a session reads it: the bytes of
    the file are not modelled, nor is the rollback journal or write-ahead log
    that SQLite may keep beside it (a session, even one that only reads, may
    bring them back into the file; the content it reads stays [db]).
    [OtherFile] is a file whose content is not an SQLite database. *)
Inductive node :=
| Directory
| DbFile (db : database)
| OtherFile.

(** The one connection a script holds: not yet acquired, open on a path,
    or closed by [conn.close()]. *)
Inductive connection_state :=
| NoConnection
| Open (path : str)
| Closed.

(** What [print] receives: a string (a literal or an f-string, kept as its
    pieces), a list of result tuples, or a dict. *)
Inductive piece :=
| Lit (s : str)
| Fmt (v : value).

Inductive object :=
| Str (ps : list piece)
| Tuples (rows : list row)
| Dict (d : list (str * value)).

(** One call of [print]: its arguments. *)
Abbreviation line := (list object).

Record world := World {
  fs : gmap str node;
  can_create : str -> bool;  (* the paths at which a file can be created *)
  connection : connection_state;
  cursor_rows : list row;    (* rows of the last statement not yet fetched *)
  cursor_names : list str;   (* [cursor.description] of the last statement *)
  stdout : list line
}.

Inductive exn :=
| OperationalError (e : op_error)  (* sqlite3.OperationalError *)
| DatabaseError                    (* sqlite3.DatabaseError: not a database *)
| ProgrammingError                 (* sqlite3.ProgrammingError: closed database *)
| TypeError.

Inductive outcome (A : Type) :=
| Returns (a : A)
| Raises (e : exn).
Arguments Returns {A} a.
Arguments Raises {A} e.

(** A computation: a function of the world that returns or raises. *)
Definition M (A : Type) : Type := world -> outcome A * world.

Definition ret {A} (a : A) : M A := fun w => (Returns a, w).

Definition raise {A} (e : exn) : M A := fun w => (Raises e, w).

Definition bind {A B} (m : M A) (k : A -> M B) : M B := fun w =>
  match m w with
  | (Returns a, w') => k a w'
  | (Raises e, w') => (Raises e, w')
  end.

Declare Scope script_scope.
Delimit Scope script_scope with script.
Bind Scope script_scope with M.

Notation "x <- m ;; k" := (bind m (fun x => k))
  (at level 100, m at next level, k at level 200, right associativity)
  : script_scope.
Notation "m ;; k" := (bind m (fun _ => k))
  (at level 100, k at level 200, right associativity) : script_scope.
Local Open Scope script_scope.

(** [for x in xs: body]. *)
Fixpoint for_each {A} (xs : list A) (body : A -> M unit) : M unit :=
  match xs with
  | [] => ret tt
  | x :: xs' => body x ;; for_each xs' body
  end.

(** [try: body / except sqlite3.OperationalError: handler]. *)
Definition try_except_OperationalError {A} (body handler : M A) : M A :=
  fun w =>
    match body w with
    | (Raises (OperationalError _), w') => handler w'
    | r => r
    end.

(** The exit status of the interpreter: 0 when the script runs to its end,
    1 when an exception is not handled. *)
Definition exit_code {A} (o : outcome A) : Z :=
  match o with
  | Returns _ => 0
  | Raises _ => 1
  end.

(** ** Built-ins and library calls *)

Definition print (args : line) : M unit := fun w =>
  (Returns tt,
   {| fs := fs w; can_create := can_create w; connection := connection w;
      cursor_rows := cursor_rows w; cursor_names := cursor_names w;
      stdout := stdout w ++ [args] |}).

(** [os.path.exists]: true for any existing entry, a directory included. *)
Definition os_path_exists (path : str) : M bool := fun w =>
  (Returns (bool_decide (is_Some (fs w !! path))), w).

(** [sqlite3.connect] opens read-write and creates a missing file (an empty
    database) where it can; the content of an existing file is not read
    until the first statement. *)
Definition sqlite3_connect (path : str) : M unit := fun w =>
  match fs w !! path with
  | Some Directory => (Raises (OperationalError UnableToOpen), w)
  | Some _ =>
      (Returns tt,
       {| fs := fs w; can_create := can_create w; connection := Open path;
          cursor_rows := cursor_rows w; cursor_names := cursor_names w;
          stdout := stdout w |})
  | None =>
      if can_create w path then
        (Returns tt,
         {| fs := <[path := DbFile []]> (fs w); can_create := can_create w;
            connection := Open path;
            cursor_rows := cursor_rows w; cursor_names := cursor_names w;
            stdout := stdout w |})
      else (Raises (OperationalError UnableToOpen), w)
  end.

(** [cursor.execute] of a SELECT statement.  A SELECT leaves the content of
    every database as it is, which is all the file system of the model
    holds of a database. *)
Definition execute (q : select) : M unit := fun w =>
  match connection w with
  | Open path =>
      match fs w !! path with
      | Some (DbFile db) =>
          match run_select db q with
          | inl e => (Raises (OperationalError e), w)
          | inr (names, rows) =>
              (Returns tt,
               {| fs := fs w; can_create := can_create w;
                  connection := connection w;
                  cursor_rows := rows; cursor_names := names;
                  stdout := stdout w |})
          end
      | Some OtherFile => (Raises DatabaseError, w)
      | Some Directory | None => (Raises (OperationalError UnableToOpen), w)
      end
  | NoConnection | Closed => (Raises ProgrammingError, w)
  end.

Definition set_cursor_rows (rows : list row) (w : world) : world :=
  {| fs := fs w; can_create := can_create w; connection := connection w;
     cursor_rows := rows; cursor_names := cursor_names w;
     stdout := stdout w |}.

(** [cursor.fetchall]: the rows not yet fetched.  A TEXT of the model is a
    sequence of code points, so it always becomes a [str]; sqlite3 raises
    [OperationalError] here on a TEXT whose bytes are not UTF-8, which the
    model does not have. *)
Definition fetchall : M (list row) := fun w =>
  (Returns (cursor_rows w), set_cursor_rows [] w).

(** [cursor.fetchone]: the next row, or [None]. *)
Definition fetchone : M (option row) := fun w =>
  match cursor_rows w with
  | [] => (Returns None, w)
  | r :: rows => (Returns (Some r), set_cursor_rows rows w)
  end.

(** The column names of [cursor.description]. *)
Definition description : M (list str) := fun w =>
  (Returns (cursor_names w), w).

(** [conn.close()].  Closing leaves the content of the database as it is
    (what it does to a write-ahead log is below what the model holds). *)
Definition close : M unit := fun w =>
  (Returns tt,
   {| fs := fs w; can_create := can_create w; connection := Closed;
      cursor_rows := cursor_rows w; cursor_names := cursor_names w;
      stdout := stdout w |}).

(** [v[:n]] inside an expression. *)
Definition slice (n : nat) (v : value) : M value :=
  match slice_to n v with
  | Some v' => ret v'
  | None => raise TypeError
  end.

(** [dict(zip(columns, question))]: [zip] needs an iterable. *)
Definition dict_zip (columns : list str) (question : option row)
  : M (list (str * value)) :=
  match question with
  | Some r => ret (dict (zip columns r))
  | None => raise TypeError
  end.

End Runtime.
Import Runtime.

(* ===================================================================== *)
(** * The scripts *)
(* ===================================================================== *)

Module Scripts.

Local Open Scope script_scope.

(** [print("...")] of a literal. *)
Definition text (s : string) : line := [Str [Lit (U s)]].

(** [print("\n...")]. *)
Definition ntext (s : string) : line := [Str [Lit (newline :: U s)]].

(** ** The statements *)

(** [SELECT sql FROM sqlite_master WHERE type='table';] *)
Definition select_schema : select :=
  {| distinct := false; columns := [Col (U "sql")];
     from := U "sqlite_master";
     where_ := Some (EEq (U "type") (VText (U "table")));
     group_by := None; order_by := None; limit := None |}.

(** [SELECT DISTINCT <field> FROM questions;] *)
Definition select_distinct (field : str) : select :=
  {| distinct := true; columns := [Col field]; from := U "questions";
     where_ := None; group_by := None; order_by := None; limit := None |}.

(** [SELECT question_type, COUNT( * ) FROM questions GROUP BY question_type;] *)
Definition select_count_by_type : select :=
  {| distinct := false; columns := [Col (U "question_type"); CountAll];
     from := U "questions"; where_ := None;
     group_by := Some (U "question_type"); order_by := None; limit := None |}.

(** [SELECT id, question_type, question_text FROM questions LIMIT <n>;] *)
Definition select_samples (n : nat) : select :=
  {| distinct := false;
     columns := [Col (U "id"); Col (U "question_type"); Col (U "question_text")];
     from := U "questions"; where_ := None;
     group_by := None; order_by := None; limit := Some n |}.

(** [SELECT * FROM questions WHERE id = 1;] *)
Definition select_first_question : select :=
  {| distinct := false; columns := [All]; from := U "questions";
     where_ := Some (EEq (U "id") (VInt 1));
     group_by := None; order_by := None; limit := None |}.

(** [SELECT option_text, is_correct FROM options
     WHERE question_id = <qid> ORDER BY id;] *)
Definition select_options (qid : value) : select :=
  {| distinct := false; columns := [Col (U "option_text"); Col (U "is_correct")];
     from := U "options"; where_ := Some (EEq (U "question_id") qid);
     group_by := None; order_by := Some (U "id"); limit := None |}.

(** [SELECT left_text, right_text FROM match_pairs WHERE question_id = <qid>;] *)
Definition select_match_pairs (qid : value) : select :=
  {| distinct := false; columns := [Col (U "left_text"); Col (U "right_text")];
     from := U "match_pairs"; where_ := Some (EEq (U "question_id") qid);
     group_by := None; order_by := None; limit := None |}.

(** [SELECT id, question_text FROM questions
     WHERE question_text LIKE "<p1>" OR question_text LIKE "<p2>"] *)
Definition select_search (p1 p2 : str) : select :=
  {| distinct := false; columns := [Col (U "id"); Col (U "question_text")];
     from := U "questions";
     where_ := Some (EOr (ELike (U "question_text") p1)
                         (ELike (U "question_text") p2));
     group_by := None; order_by := None; limit := None |}.

(** ** check_db.py *)

(** [f"Database not found at: {db_path}"] *)
Definition not_found_line (db_path : str) : line :=
  [Str [Lit (U "Database not found at: "); Fmt (VText db_path)]].

(** The cap of a question-text preview. *)
Definition preview_cap : nat := 100.

(** [f"- {x[0]}"] *)
Definition bullet_line (r : row) : line :=
  [Str [Lit (U "- "); Fmt (item 0 r)]].

(** [f"{qtype}: {count} questions"] *)
Definition count_line (r : row) : line :=
  [Str [Fmt (item 0 r); Lit (U ": "); Fmt (item 1 r); Lit (U " questions")]].

(** [f"ID {qid} ({qtype}): {preview}..."] *)
Definition sample_line (qid qtype preview : value) : line :=
  [Str [Lit (U "ID "); Fmt qid; Lit (U " ("); Fmt qtype; Lit (U "): ");
        Fmt preview; Lit (U "...")]].

(** The section that lists the distinct values of a field. *)
Definition list_distinct (field : str) : M unit :=
  execute (select_distinct field) ;;
  values <- fetchall ;;
  for_each values (fun v => print (bullet_line v)).

(** [print(f"ID {qid} ({qtype}): {qtext[:100]}...")] *)
Definition print_sample (sample : row) : M unit :=
  let qid := item 0 sample in
  let qtype := item 1 sample in
  let qtext := item 2 sample in
  preview <- slice preview_cap qtext ;;
  print (sample_line qid qtype preview).

(** The sections up to and including the subtopics, shared word for word
    by check_db.py and check_leadership_db.py (lines 12 to 49). *)
Definition report_head : M unit :=
  print (text "=== DATABASE SCHEMA ===") ;;
  execute select_schema ;;
  tables <- fetchall ;;
  for_each tables (fun table =>
    print [Str [Fmt (item 0 table)]] ;;
    print []) ;;
  print (text "=== QUESTION TYPES ===") ;;
  list_distinct (U "question_type") ;;
  print (ntext "=== QUESTION COUNT BY TYPE ===") ;;
  execute select_count_by_type ;;
  counts <- fetchall ;;
  for_each counts (fun r => print (count_line r)) ;;
  print (ntext "=== TOPICS ===") ;;
  list_distinct (U "topic") ;;
  print (ntext "=== SUBTOPICS ===") ;;
  try_except_OperationalError
    (list_distinct (U "subtopic"))
    (print (text "No subtopic column found")).

Definition check_db (db_path : str) : M unit :=
  found <- os_path_exists db_path ;;
  if found then
    sqlite3_connect db_path ;;
    report_head ;;
    print (ntext "=== SAMPLE QUESTIONS ===") ;;
    execute (select_samples 3) ;;
    samples <- fetchall ;;
    for_each samples print_sample ;;
    close
  else
    print (not_found_line db_path).

Definition check_db_path : str := U "d:\Projects\MockTest\DB Files\Testing.db".

(** ** Golden/Golden 24/check_leadership_db.py *)

Definition check_mark : str := [10003%N].
Definition arrow : str := [8594%N].

(** [marker = "<check mark>" if is_correct else " "] *)
Definition marker (is_correct : value) : str :=
  if truthy is_correct then check_mark else U " ".

(** [f"<indent>{marker} {opt_text}"] *)
Definition option_line (indent : string) (o : row) : line :=
  [Str [Lit (U indent); Fmt (VText (marker (item 1 o))); Lit (U " ");
        Fmt (item 0 o)]].

(** [if options: ...] *)
Definition print_options (options : list row) : M unit :=
  match options with
  | [] => ret tt
  | _ =>
      print [Str [Lit (U "  Options: ");
                  Fmt (VInt (Z.of_nat (length options))); Lit (U " found")]] ;;
      for_each options (fun o => print (option_line "    " o))
  end.

(** [if matches: ...] *)
Definition print_match_pairs (matches : list row) : M unit :=
  match matches with
  | [] => ret tt
  | _ =>
      print [Str [Lit (U "  Match pairs: ");
                  Fmt (VInt (Z.of_nat (length matches))); Lit (U " found")]] ;;
      for_each matches (fun m =>
        print [Str [Lit (U "    "); Fmt (item 0 m); Lit (U " ");
                    Lit arrow; Lit (U " "); Fmt (item 1 m)]])
  end.

Definition print_sample_with_children (sample : row) : M unit :=
  print_sample sample ;;
  execute (select_options (item 0 sample)) ;;
  options <- fetchall ;;
  print_options options ;;
  execute (select_match_pairs (item 0 sample)) ;;
  matches <- fetchall ;;
  print_match_pairs matches ;;
  print [].

Definition check_leadership_db (db_path : str) : M unit :=
  found <- os_path_exists db_path ;;
  if found then
    sqlite3_connect db_path ;;
    report_head ;;
    print (ntext "=== SAMPLE QUESTIONS ===") ;;
    execute (select_samples 3) ;;
    samples <- fetchall ;;
    for_each samples print_sample_with_children ;;
    close
  else
    print (not_found_line db_path).

Definition check_leadership_db_path : str :=
  U "d:\Projects\MockTest\DB Files\EdLEAP-Leadership Questions.db".

(** ** debug_question.py *)

(** Lines 9 to 15: the first question with all its data. *)
Definition report_first_question : M unit :=
  print (text "=== FIRST QUESTION DATA ===") ;;
  execute select_first_question ;;
  question <- fetchone ;;
  columns <- description ;;
  q_dict <- dict_zip columns question ;;
  print [Str [Lit (U "Question data:")]; Dict q_dict].

(** Lines 17 to 20. *)
Definition report_first_options : M unit :=
  print (ntext "=== OPTIONS FOR QUESTION 1 ===") ;;
  execute (select_options (VInt 1)) ;;
  options <- fetchall ;;
  print [Str [Lit (U "Options:")]; Tuples options].

(** Lines 22 to 25. *)
Definition report_first_match_pairs : M unit :=
  print (ntext "=== MATCH PAIRS FOR QUESTION 1 ===") ;;
  execute (select_match_pairs (VInt 1)) ;;
  matches <- fetchall ;;
  print [Str [Lit (U "Match pairs:")]; Tuples matches].

Definition debug_question (db_path : str) : M unit :=
  sqlite3_connect db_path ;;
  report_first_question ;;
  report_first_options ;;
  report_first_match_pairs ;;
  close.

Definition debug_question_path : str := check_db_path.

(** ** Golden/Golden 24/search_question.py *)

(** The script with its path and its two patterns as parameters. *)
Definition search_question (db_path p1 p2 : str) : M unit :=
  sqlite3_connect db_path ;;
  execute (select_search p1 p2) ;;
  questions <- fetchall ;;
  for_each questions (fun q =>
    let qid := item 0 q in
    let qtext := item 1 q in
    print [Str [Lit (U "ID "); Fmt qid; Lit (U ": "); Fmt qtext]] ;;
    execute (select_options qid) ;;
    options <- fetchall ;;
    for_each options (fun o => print (option_line "  " o)) ;;
    print []) ;;
  close.

Definition search_question_path : str :=
  U "DB Files/EdLEAP-Leadership Questions.db".
Definition search_pattern_1 : str := U "%professional learning communities%".
Definition search_pattern_2 : str := U "%strengthens professional%".

End Scripts.
Import Scripts.

(* ===================================================================== *)
(** * Notions used by the statements *)
(* ===================================================================== *)

Module Props.

(** Order of two elements on their sort key, and strict order. *)
Definition key_le {A} (key : A -> value) (x y : A) : Prop :=
  value_leb (key x) (key y) = true.

Definition key_lt {A} (key : A -> value) (x y : A) : Prop :=
  value_leb (key y) (key x) = false.

(** The key shared by the rows of a group. *)
Definition group_key (key : row -> value) (g : list row) : value :=
  key (hd [] g).

(** The count reported in a row [(type, count)], and the sum of the counts
    of a result. *)
Definition count_of (r : row) : Z :=
  match item 1 r with VInt c => c | _ => 0 end.

Definition total (counts : list row) : Z :=
  foldr (fun r acc => count_of r + acc) 0 counts.

(** The number of rows whose column [i] holds [k], or a value that the
    collating sequence [c] does not tell from [k]. *)
Definition class_size (c : collation) (i : nat) (k : value) (rows : list row)
  : Z :=
  Z.of_nat (length (filter (fun q => collated c (item i q) = collated c k)
                           rows)).

(** The world once further lines have been printed. *)
Definition printed (ls : list line) (w : world) : world :=
  {| fs := fs w; can_create := can_create w; connection := connection w;
     cursor_rows := cursor_rows w; cursor_names := cursor_names w;
     stdout := stdout w ++ ls |}.

(** A computation that leaves the file system and the connection alone. *)
Definition quiet {A} (m : M A) : Prop :=
  forall w, fs (snd (m w)) = fs w /\ connection (snd (m w)) = connection w.

(** A computation that leaves the file system alone, closes the connection
    when it returns and leaves the connection as it is when it raises. *)
Definition closes_at_end {A} (m : M A) : Prop :=
  forall w,
    fs (snd (m w)) = fs w
    /\ match fst (m w) with
       | Returns _ => connection (snd (m w)) = Closed
       | Raises _ => connection (snd (m w)) = connection w
       end.

(** No connection is open. *)
Definition released (w : world) : Prop := forall p, connection w <> Open p.

(** Release on every exit path, as a guaranteed-release construct gives
    it: however the run ends, no connection is left open. *)
Definition releases_on_every_exit (script : M unit) : Prop :=
  forall w, connection w = NoConnection -> released (snd (script w)).

(** What the scripts give instead: the connection is closed exactly when
    the run reaches its last statement.  A run that returns has closed its
    connection, or (a [guarded] script on an absent path) never acquired
    one; a run that raises has left its connection open, or failed to
    acquire it. *)
Definition closed_iff_completed (guarded : bool) (path : str) (w : world)
    (r : outcome unit * world) : Prop :=
  match fst r with
  | Returns _ =>
      connection (snd r) = Closed
      \/ (guarded = true /\ fs w !! path = None
          /\ connection (snd r) = NoConnection)
  | Raises e =>
      connection (snd r) = Open path
      \/ (e = OperationalError UnableToOpen
          /\ connection (snd r) = NoConnection)
  end.

(** The file system after [sqlite3.connect(path)]. *)
Definition fs_after_connect (path : str) (w : world) : gmap str node :=
  match fs w !! path with
  | Some _ => fs w
  | None => if can_create w path then <[path := DbFile []]> (fs w) else fs w
  end.

(** A world whose file system holds one file, at [path]. *)
Definition world_with (path : str) (n : node) : world :=
  {| fs := {[ path := n ]}; can_create := fun _ => true;
     connection := NoConnection;
     cursor_rows := []; cursor_names := []; stdout := [] |}.

(** A world with an empty file system in which files can be created. *)
Definition empty_world : world :=
  {| fs := ∅; can_create := fun _ => true; connection := NoConnection;
     cursor_rows := []; cursor_names := []; stdout := [] |}.

(** The database a path holds, if it holds one. *)
Definition bank_at (w : world) (path : str) : option database :=
  match fs w !! path with
  | Some (DbFile db) => Some db
  | _ => None
  end.

(** The path resolves to an existing file (a directory is none). *)
Definition resolves_to_file (w : world) (path : str) : Prop :=
  exists n, fs w !! path = Some n /\ n <> Directory.

(** A script that reports every path that does not resolve to an existing
    file as not found, and ends normally. *)
Definition reports_absence (script : str -> M unit) : Prop :=
  forall w path,
    ~ resolves_to_file w path ->
    script path w = (Returns tt, printed [not_found_line path] w).

(** How a run ends, seen from the world [w] it started in: its outcome,
    the file system unchanged, the state of the connection, and the lines
    it added to the output. *)
Definition ends_with {A} (r : outcome A * world) (w : world)
    (o : outcome A) (ls : list line) (c : connection_state) : Prop :=
  fst r = o /\ fs (snd r) = fs w /\ connection (snd r) = c
  /\ stdout (snd r) = stdout w ++ ls.

(** [run p db m o ls c]: in a session on the database [db] at path [p],
    the computation [m] ends with outcome [o], having printed [ls] and left
    the connection in state [c]. *)
Definition run {A} (p : str) (db : database) (m : M A)
    (o : outcome A) (ls : list line) (c : connection_state) : Prop :=
  forall w,
    connection w = Open p -> fs w !! p = Some (DbFile db) ->
    ends_with (m w) w o ls c.

(** The result rows of a statement that succeeds. *)
Definition rows_of (db : database) (q : select) : list row :=
  match run_select db q with
  | inr (_, rows) => rows
  | inl _ => []
  end.

(** A row whose column [i] refers to the question [qid] (NULL refers to
    nothing). *)
Definition refers_to (i : nat) (qid : value) (r : row) : Prop :=
  item i r = qid /\ qid <> VNull.

(** The columns of a row at the given positions. *)
Definition pick (ks : list nat) (r : row) : row := map (fun i => item i r) ks.

(** The two lines check_db.py prints for a table of the schema. *)
Definition schema_lines (table : row) : list line :=
  [[Str [Fmt (item 0 table)]]; []].

(** The preview of a question text. *)
Definition preview (v : value) : value :=
  default VNull (slice_to preview_cap v).

(** The line of a sample [(id, type, text)]. *)
Definition sample_report_line (r : row) : line :=
  sample_line (item 0 r) (item 1 r) (preview (item 2 r)).



(** The rows of a statement, or its error. *)
Definition result (db : database) (q : select) : op_error + list row :=
  match run_select db q with
  | inl e => inl e
  | inr (_, rows) => inr rows
  end.

(** The WHERE clause of search_question.py, and whether a row of the table
    passes it. *)
Definition search_clause (p1 p2 : str) : expr :=
  EOr (ELike (U "question_text") p1) (ELike (U "question_text") p2).

Definition search_hit (t : table) (p1 p2 : str) (r : row) : bool :=
  match resolve (t_columns t) (search_clause p1 p2) with
  | inr e => holds e r
  | inl _ => false
  end.

(** A text without the wildcards [%] and [_]. *)
Definition wildcard_free (s : str) : Prop :=
  Forall (fun c => c <> 37%N /\ c <> 95%N) s.

(** [s] contains [needle], ASCII case aside. *)
Definition contains (needle s : str) : Prop :=
  exists pre mid post,
    s = pre ++ mid ++ post /\ map fold_case mid = map fold_case needle.

(** The bank of the end-to-end scenario: one question, its two options in
    the order of their creation, no match pair.  The scenario leaves the
    topic of the question open. *)
Definition scenario_questions (topic : value) : table :=
  {| t_name := U "questions"; t_rootpage := 2;
     t_sql := VText (U "CREATE TABLE questions (id INTEGER PRIMARY KEY, question_type TEXT, topic TEXT, question_text TEXT)");
     t_columns := [U "id"; U "question_type"; U "topic"; U "question_text"];
     t_collations := [];
     t_rows := [[VInt 1; VText (U "MCQ"); topic;
                 VText (U "What is leadership?")]] |}.

Definition scenario_options : table :=
  {| t_name := U "options"; t_rootpage := 3;
     t_sql := VText (U "CREATE TABLE options (id INTEGER PRIMARY KEY, question_id INTEGER, option_text TEXT, is_correct INTEGER)");
     t_columns := [U "id"; U "question_id"; U "option_text"; U "is_correct"];
     t_collations := [];
     t_rows := [[VInt 1; VInt 1; VText (U "Trait-based"); VInt 0];
                [VInt 2; VInt 1; VText (U "Situational"); VInt 1]] |}.

Definition scenario_match_pairs : table :=
  {| t_name := U "match_pairs"; t_rootpage := 4;
     t_sql := VText (U "CREATE TABLE match_pairs (question_id INTEGER, left_text TEXT, right_text TEXT)");
     t_columns := [U "question_id"; U "left_text"; U "right_text"];
     t_collations := [];
     t_rows := [] |}.

Definition scenario_bank (topic : value) : database :=
  [ObjTable (scenario_questions topic); ObjTable scenario_options;
   ObjTable scenario_match_pairs].

(** A bank with five questions: the first a free-text question without
    options or match pairs, one without a type, one longer than a preview.
    The options were created in the order of their ids.  The bank has no
    [subtopic] column. *)
Definition mixed_questions : table :=
  {| t_name := U "questions"; t_rootpage := 2;
     t_sql := VText (U "CREATE TABLE questions (id INTEGER PRIMARY KEY, question_type TEXT, topic TEXT, question_text TEXT)");
     t_columns := [U "id"; U "question_type"; U "topic"; U "question_text"];
     t_collations := [];
     t_rows :=
       [[VInt 1; VText (U "Essay"); VText (U "Leadership");
         VText (U "Describe your leadership style.")];
        [VInt 2; VText (U "MCQ"); VText (U "Leadership");
         VText (U "What is leadership?")];
        [VInt 3; VText (U "Matching"); VText (U "Coaching");
         VText (repeat 233%N 120)];
        [VInt 4; VNull; VText (U "Coaching");
         VText (U "Which action strengthens professional learning?")];
        [VInt 5; VText (U "MCQ"); VNull;
         VText (U "Which statement about coaching is true?")]] |}.

Definition mixed_options : table :=
  {| t_name := U "options"; t_rootpage := 3;
     t_sql := VText (U "CREATE TABLE options (id INTEGER PRIMARY KEY, question_id INTEGER, option_text TEXT, is_correct INTEGER)");
     t_columns := [U "id"; U "question_id"; U "option_text"; U "is_correct"];
     t_collations := [];
     t_rows := [[VInt 1; VInt 2; VText (U "Trait-based"); VInt 0];
                [VInt 2; VInt 5; VText (U "Coaching is telling"); VInt 0];
                [VInt 3; VInt 2; VText (U "Situational"); VInt 1];
                [VInt 4; VInt 5; VText (U "Coaching is asking"); VInt 1]] |}.

Definition mixed_match_pairs : table :=
  {| t_name := U "match_pairs"; t_rootpage := 4;
     t_sql := VText (U "CREATE TABLE match_pairs (question_id INTEGER, left_text TEXT, right_text TEXT)");
     t_columns := [U "question_id"; U "left_text"; U "right_text"];
     t_collations := [];
     t_rows := [[VInt 3; VText (U "Coach"); VText (U "Guides")]] |}.

Definition mixed_bank : database :=
  [ObjTable mixed_questions; ObjTable mixed_options;
   ObjTable mixed_match_pairs].

Definition mixed_world : world := world_with check_db_path (DbFile mixed_bank).

(** A bank whose only question does not have the id 1. *)
Definition renumbered_questions : table :=
  {| t_name := U "questions"; t_rootpage := 2;
     t_sql := VText (U "CREATE TABLE questions (id INTEGER PRIMARY KEY, question_type TEXT, topic TEXT, question_text TEXT)");
     t_columns := [U "id"; U "question_type"; U "topic"; U "question_text"];
     t_collations := [];
     t_rows := [[VInt 7; VText (U "MCQ"); VText (U "Leadership");
                 VText (U "What is leadership?")]] |}.

Definition renumbered_bank : database :=
  [ObjTable renumbered_questions; ObjTable scenario_options;
   ObjTable scenario_match_pairs].

Definition renumbered_world : world :=
  world_with check_db_path (DbFile renumbered_bank).

(** The scenario with a topic filled in, as a file at the path of
    check_db.py; and a world whose file at that path is a database without
    any table. *)
Definition scenario_db : database := scenario_bank (VText (U "Leadership")).

Definition scenario_world : world :=
  world_with check_db_path (DbFile scenario_db).

Definition bare_world : world := world_with check_db_path (DbFile []).

(** ** Further notions and banks *)

(** The tables of a database, in schema order (its indexes left out). *)
Fixpoint tables_of (db : database) : list table :=
  match db with
  | [] => []
  | ObjTable t :: db' => t :: tables_of db'
  | ObjIndex _ :: db' => tables_of db'
  end.

(** A world whose file at the path of check_db.py is not a database, one
    in which that path is a directory, and an empty one in which no file
    can be created. *)
Definition junk_world : world := world_with check_db_path OtherFile.

Definition directory_world : world := world_with check_db_path Directory.

Definition sealed_world : world :=
  {| fs := ∅; can_create := fun _ => false; connection := NoConnection;
     cursor_rows := []; cursor_names := []; stdout := [] |}.

(** What check_db.py has printed when it reaches the first statement on
    [questions]. *)
Definition lines_before_questions (db : database) : list line :=
  [text "=== DATABASE SCHEMA ==="]
  ++ concat (map schema_lines (rows_of db select_schema))
  ++ [text "=== QUESTION TYPES ==="].

(** The subtopics section of a report: the values of the column, or the
    line of the handler when the statement fails. *)
Definition subtopic_lines (db : database) : list line :=
  match run_select db (select_distinct (U "subtopic")) with
  | inr (_, rows) => map bullet_line rows
  | inl _ => [text "No subtopic column found"]
  end.



(** What check_leadership_db.py prints for the options and the match pairs
    of a sample: nothing when there are none, else a line with their number
    and a line for each. *)
Definition options_block (options : list row) : list line :=
  match options with
  | [] => []
  | _ =>
      [Str [Lit (U "  Options: "); Fmt (VInt (Z.of_nat (length options)));
            Lit (U " found")]]
      :: map (option_line "    ") options
  end.

Definition pair_line (m : row) : line :=
  [Str [Lit (U "    "); Fmt (item 0 m); Lit (U " "); Lit arrow; Lit (U " ");
        Fmt (item 1 m)]].

Definition match_pairs_block (matches : list row) : list line :=
  match matches with
  | [] => []
  | _ =>
      [Str [Lit (U "  Match pairs: "); Fmt (VInt (Z.of_nat (length matches)));
            Lit (U " found")]]
      :: map pair_line matches
  end.

(** The lines of one sample of check_leadership_db.py. *)
Definition sample_block (db : database) (sample : row) : list line :=
  [sample_report_line sample]
  ++ options_block (rows_of db (select_options (item 0 sample)))
  ++ match_pairs_block (rows_of db (select_match_pairs (item 0 sample)))
  ++ [[]].


(** The lines of one match of search_question.py. *)
Definition hit_line (q : row) : line :=
  [Str [Lit (U "ID "); Fmt (item 0 q); Lit (U ": "); Fmt (item 1 q)]].

Definition hit_block (db : database) (q : row) : list line :=
  [hit_line q]
  ++ map (option_line "  ") (rows_of db (select_options (item 0 q)))
  ++ [[]].

(** A bank of the newer schema, with a [subtopic] column. *)
Definition detailed_questions : table :=
  {| t_name := U "questions"; t_rootpage := 2;
     t_sql := VText (U "CREATE TABLE questions (id INTEGER PRIMARY KEY, question_type TEXT, topic TEXT, subtopic TEXT, question_text TEXT)");
     t_columns := [U "id"; U "question_type"; U "topic"; U "subtopic";
                   U "question_text"];
     t_collations := [];
     t_rows :=
       [[VInt 1; VText (U "MCQ"); VText (U "Leadership"); VText (U "Styles");
         VText (U "What is leadership?")];
        [VInt 2; VText (U "MCQ"); VText (U "Leadership"); VText (U "Styles");
         VText (U "Which style suits a crisis?")];
        [VInt 3; VText (U "Essay"); VText (U "Coaching"); VNull;
         VText (U "Describe a coaching conversation.")]] |}.

Definition detailed_bank : database :=
  [ObjTable detailed_questions; ObjTable mixed_options;
   ObjTable mixed_match_pairs].




Definition childless_world : world :=
  world_with check_db_path (DbFile [ObjTable mixed_questions]).

(** A bank with an option that belongs to no question. *)
Definition orphan_options : table :=
  {| t_name := U "options"; t_rootpage := 3;
     t_sql := VText (U "CREATE TABLE options (id INTEGER PRIMARY KEY, question_id INTEGER, option_text TEXT, is_correct INTEGER)");
     t_columns := [U "id"; U "question_id"; U "option_text"; U "is_correct"];
     t_collations := [];
     t_rows := [[VInt 1; VNull; VText (U "Unassigned"); VInt 0];
                [VInt 2; VInt 2; VText (U "Trait-based"); VInt 0]] |}.

Definition orphan_bank : database :=
  [ObjTable mixed_questions; ObjTable orphan_options;
   ObjTable mixed_match_pairs].




(** A bank whose question types were typed in with different cases, in a
    column declared COLLATE NOCASE. *)
Definition cased_questions : table :=
  {| t_name := U "questions"; t_rootpage := 2;
     t_sql := VText (U "CREATE TABLE questions (id INTEGER PRIMARY KEY, question_type TEXT COLLATE NOCASE, topic TEXT, question_text TEXT)");
     t_columns := [U "id"; U "question_type"; U "topic"; U "question_text"];
     t_collations := [Binary; NoCase; Binary; Binary];
     t_rows :=
       [[VInt 1; VText (U "MCQ"); VText (U "Leadership");
         VText (U "What is leadership?")];
        [VInt 2; VText (U "mcq"); VText (U "Leadership");
         VText (U "Which style suits a crisis?")];
        [VInt 3; VText (U "Essay"); VText (U "Coaching");
         VText (U "Describe a coaching conversation.")];
        [VInt 4; VText (U "Mcq"); VText (U "Coaching");
         VText (U "Which statement about coaching is true?")]] |}.

Definition cased_bank : database := [ObjTable cased_questions].

(** The mixed bank with an index on the topics of its questions. *)
Definition topic_index : index :=
  {| i_name := U "idx_questions_topic"; i_table := U "questions";
     i_rootpage := 5;
     i_sql := VText (U "CREATE INDEX idx_questions_topic ON questions (topic)") |}.

Definition indexed_bank : database := mixed_bank ++ [ObjIndex topic_index].

(** ** The creation of options *)

(** The scripts only read a bank; the order in which its rows were created
    is a fact of its history.  [INSERT] of a row that carries its id into
    [options], whose [id] is its INTEGER PRIMARY KEY and so its rowid, stores
    the row at the place of its id, wherever the rows inserted before it
    are. *)
Definition carries_id (r : row) : Prop := exists n, item 0 r = VInt n.

Definition insert_option (r : row) (t : table) : table :=
  {| t_name := t_name t; t_rootpage := t_rootpage t; t_sql := t_sql t;
     t_columns := t_columns t; t_collations := t_collations t;
     t_rows := insert_by (item 0) r (t_rows t) |}.

Definition no_options : table :=
  {| t_name := U "options"; t_rootpage := 3;
     t_sql := VText (U "CREATE TABLE options (id INTEGER PRIMARY KEY, question_id INTEGER, option_text TEXT, is_correct INTEGER)");
     t_columns := [U "id"; U "question_id"; U "option_text"; U "is_correct"];
     t_collations := [];
     t_rows := [] |}.

(** The [options] table once the rows [rs] have been inserted one after
    the other, and a bank that holds it. *)
Definition options_created (rs : list row) : table :=
  fold_left (fun t r => insert_option r t) rs no_options.

Definition bank_with_options (rs : list row) : database :=
  [ObjTable (options_created rs)].

(** The options of a question, [(option_text, is_correct)], in the order of
    their creation. *)
Definition options_as_created (rs : list row) (qid : value) : list row :=
  map (pick [2; 3]%nat) (filter (refers_to 1 qid) rs).

(** Options come back in the order of their creation, whatever their
    ids. *)
Definition options_in_creation_order : Prop :=
  forall (rs : list row) (qid : value),
    Forall carries_id rs ->
    NoDup (map (item 0) rs) ->
    result (bank_with_options rs) (select_options qid)
    = inr (options_as_created rs qid).

(** The two options of the scenario, created with ids that do not
    ascend. *)
Definition options_out_of_order : list row :=
  [[VInt 7; VInt 1; VText (U "Trait-based"); VInt 0];
   [VInt 3; VInt 1; VText (U "Situational"); VInt 1]].

End Props.
Import Props.

(* ===================================================================== *)
(** * Properties of the storage layer *)
(* ===================================================================== *)

Section Sorter.
Context {A : Type} (key : A -> value).

Lemma insert_by_perm (x : A) (l : list A) : insert_by key x l ≡ₚ x :: l.
Proof.
  induction l as [|y l IH]; simpl; [done|].
  destruct (value_leb (key x) (key y)); [done|].
  rewrite IH. apply Permutation_swap.
Qed.

Lemma sort_by_perm (l : list A) : sort_by key l ≡ₚ l.
Proof.
  induction l as [|x l IH]; simpl; [done|].
  unfold sort_by in *. simpl. rewrite insert_by_perm. by rewrite IH.
Qed.

Lemma sort_by_length (l : list A) : length (sort_by key l) = length l.
Proof. by rewrite sort_by_perm. Qed.
End Sorter.

Lemma concat_runs (key : row -> value) (l : list row) :
  concat (runs key l) = l.
Proof.
  induction l as [|r l IH]; simpl; [done|].
  destruct (runs key l) as [|[|x g] gs] eqn:E; simpl in *.
  - by rewrite <- IH.
  - by rewrite <- IH.
  - destruct (value_eqb (key r) (key x)); simpl; by rewrite <- IH.
Qed.

(** ** The order of values is a total order *)

Lemma str_leb_total (a b : str) : str_leb a b = false -> str_leb b a = true.
Proof.
  revert b; induction a as [|x a IH]; intros [|y b]; simpl; try done.
  destruct (N.ltb_spec x y), (N.ltb_spec y x); try done; try lia.
  apply IH.
Qed.

Lemma str_leb_antisym (a b : str) :
  str_leb a b = true -> str_leb b a = true -> a = b.
Proof.
  revert b; induction a as [|x a IH]; intros [|y b]; simpl; try done.
  destruct (N.ltb_spec x y), (N.ltb_spec y x); try done; try lia.
  intros. f_equal; [lia | by apply IH].
Qed.

Lemma str_leb_trans (a b c : str) :
  str_leb a b = true -> str_leb b c = true -> str_leb a c = true.
Proof.
  revert b c; induction a as [|x a IH]; intros [|y b] [|z c]; simpl; try done.
  destruct (N.ltb_spec x y), (N.ltb_spec y x), (N.ltb_spec y z),
    (N.ltb_spec z y), (N.ltb_spec x z), (N.ltb_spec z x);
    try done; try lia.
  apply IH.
Qed.

Lemma value_leb_total (a b : value) :
  value_leb a b = false -> value_leb b a = true.
Proof.
  destruct a, b; simpl; try done.
  - intros H. apply Z.leb_gt in H. apply Z.leb_le. lia.
  - apply str_leb_total.
Qed.

Lemma value_leb_antisym (a b : value) :
  value_leb a b = true -> value_leb b a = true -> a = b.
Proof.
  destruct a, b; simpl; try done.
  - intros H1%Z.leb_le H2%Z.leb_le. f_equal. lia.
  - intros. f_equal. by apply str_leb_antisym.
Qed.

Lemma value_leb_trans (a b c : value) :
  value_leb a b = true -> value_leb b c = true -> value_leb a c = true.
Proof.
  destruct a, b, c; simpl; try done.
  - intros H1%Z.leb_le H2%Z.leb_le. apply Z.leb_le. lia.
  - apply str_leb_trans.
Qed.

(** ** The sorter sorts, and keeps ties in their order *)

Section Sorted.
Context {A : Type} (key : A -> value).

Lemma insert_by_sorted (x : A) (l : list A) :
  StronglySorted (key_le key) l -> StronglySorted (key_le key) (insert_by key x l).
Proof.
  induction 1 as [|y l Hs IH Hall]; simpl.
  - repeat constructor.
  - destruct (value_leb (key x) (key y)) eqn:E.
    + constructor; [by constructor|].
      constructor; [done|].
      eapply Forall_impl; [exact Hall|].
      intros z Hz. unfold key_le in *. by eapply value_leb_trans.
    + constructor; [done|].
      rewrite insert_by_perm. constructor; [|done].
      by apply value_leb_total.
Qed.

Lemma sort_by_sorted (l : list A) : StronglySorted (key_le key) (sort_by key l).
Proof.
  induction l as [|x l IH]; simpl; [constructor|].
  by apply insert_by_sorted.
Qed.

(** A list already in order is left as it is. *)
Lemma sort_by_id (l : list A) : StronglySorted (key_le key) l -> sort_by key l = l.
Proof.
  induction 1 as [|x l Hs IH Hall]; simpl; [done|].
  unfold sort_by in *. simpl. rewrite IH.
  destruct l as [|y l]; simpl; [done|].
  inversion Hall as [|? ? Hy _]; subst. unfold key_le in Hy. by rewrite Hy.
Qed.
End Sorted.

(** ** Grouping *)

Lemma filter_none {A} (P : A -> Prop) `{!forall x, Decision (P x)} (l : list A) :
  Forall (fun x => ~ P x) l -> filter P l = [].
Proof.
  induction 1 as [|x l Hx _ IH]; [done|].
  by rewrite filter_cons_False.
Qed.

Lemma elem_of_concat {A} (x : A) (g : list A) (gs : list (list A)) :
  g ∈ gs -> x ∈ g -> x ∈ concat gs.
Proof.
  induction 1 as [g gs|g g' gs _ IH]; simpl; intros Hx;
    apply elem_of_app; [by left|right; by apply IH].
Qed.

Section Runs.
Context (key : row -> value).

Lemma sorted_later_keys_differ (r x : row) (l : list row) :
  StronglySorted (key_le key) (r :: x :: l) ->
  key r <> key x ->
  Forall (fun y => key y <> key r) (x :: l).
Proof.
  intros Hs Hne.
  inversion Hs as [|? ? Hs' Hr]; subst.
  inversion Hs' as [|? ? _ Hx]; subst.
  inversion Hr as [|? ? Hrx Hrl]; subst.
  constructor; [congruence|].
  apply Forall_forall. intros y Hy Heq.
  rewrite Forall_forall in Hx. specialize (Hx y Hy).
  unfold key_le in *. rewrite Heq in Hx.
  apply Hne. by apply value_leb_antisym.
Qed.

(** On a sorted list every run is the whole class of its key, and no key
    has two runs. *)
Lemma runs_sorted (l : list row) :
  StronglySorted (key_le key) l ->
  Forall (fun g => g <> [] /\ g = filter (fun r => key r = group_key key g) l)
         (runs key l)
  /\ NoDup (map (group_key key) (runs key l))
  /\ match runs key l with
     | [] => l = []
     | g :: _ => g <> [] /\ hd [] g = hd [] l
     end.
Proof.
  induction l as [|r l IH]; intros Hs.
  { simpl. repeat split; constructor. }
  assert (Hs' : StronglySorted (key_le key) l) by (by inversion Hs).
  destruct (IH Hs') as (Hall & Hnd & Hhd). clear IH.
  simpl. destruct (runs key l) as [|[|x g] gs] eqn:E.
  - subst l. simpl. split; [|split; [|split]].
    + repeat constructor; [done|]. unfold group_key; simpl.
      by rewrite filter_cons_True, filter_nil.
    + repeat constructor. set_solver.
    + done.
    + done.
  - by destruct Hhd.
  - destruct Hhd as [_ Hhd]. simpl in Hhd.
    destruct l as [|x' l]; [by pose proof (concat_runs key []) as C;
                              rewrite E in C|].
    simpl in Hhd. subst x'.
    unfold value_eqb. case_bool_decide as Hk.
    + (* the row joins the first run *)
      inversion Hall as [|? ? [_ Hg] Hrest]; subst.
      inversion Hnd as [|? ? Hnotin Hnd']; subst.
      unfold group_key in Hg, Hnotin; simpl in Hg, Hnotin.
      split; [|split; [|split]].
      * constructor.
        -- split; [done|]. unfold group_key; simpl.
           rewrite filter_cons_True by done. rewrite Hk. by rewrite <- Hg.
        -- rewrite Forall_forall in Hrest. apply Forall_forall.
           intros g' Hin. destruct (Hrest g' Hin) as [Hne Heq].
           split; [done|].
           rewrite filter_cons_False; [done|].
           intros Hr. apply Hnotin. rewrite <- Hk, Hr.
           apply list_elem_of_fmap. exists g'. split; [|done].
           unfold group_key. congruence.
      * simpl. unfold group_key at 1; simpl. rewrite Hk.
        by constructor.
      * done.
      * done.
    + (* the row starts a run of its own *)
      pose proof (sorted_later_keys_differ r x l Hs Hk) as Hlater.
      assert (Hsub : forall g', g' ∈ (x :: g) :: gs -> g' <> [] ->
                                hd [] g' ∈ x :: l).
      { intros g' Hin Hne.
        pose proof (concat_runs key (x :: l)) as C. rewrite E in C.
        rewrite <- C. apply (elem_of_concat _ g'); [done|].
        destruct g'; [done|]. simpl. left. }
      split; [|split; [|split]].
      * constructor.
        -- split; [done|]. unfold group_key; simpl.
           rewrite filter_cons_True by done. f_equal.
           symmetry. apply filter_none.
           eapply Forall_impl; [exact Hlater|]. by intros.
        -- rewrite Forall_forall in Hall. apply Forall_forall.
           intros g' Hin. destruct (Hall g' Hin) as [Hne Heq].
           split; [done|].
           rewrite filter_cons_False; [done|].
           intros Hr. rewrite Forall_forall in Hlater.
           apply (Hlater (hd [] g')); [by apply Hsub|].
           by symmetry.
      * simpl. constructor; [|done].
        unfold group_key at 1; simpl.
        intros Hin.
        change (key r ∈ map (group_key key) ((x :: g) :: gs)) in Hin.
        apply list_elem_of_fmap in Hin as (g' & Hg' & Hin).
        unfold group_key in Hg'.
        rewrite Forall_forall in Hall. destruct (Hall g' Hin) as [Hne _].
        rewrite Forall_forall in Hlater.
        apply (Hlater (hd [] g')); [by apply Hsub|].
        by symmetry.
      * done.
      * done.
Qed.
End Runs.

Lemma total_of_groups (i : nat) (gs : list (list row)) :
  total (map (project [PCol i; PCount]) gs) = Z.of_nat (length (concat gs)).
Proof.
  induction gs as [|g gs IH]; simpl; [done|].
  rewrite length_app, IH. unfold count_of; simpl. lia.
Qed.

Arguments U : simpl never.

Lemma select_count_by_type_rows (db : database) (t : table) (i : nat) :
  find_table db (U "questions") = Some t ->
  col_index (t_columns t) (U "question_type") = Some i ->
  run_select db select_count_by_type
  = inr ([nth i (t_columns t) []; U "COUNT" ++ [40; 42; 41]%N],
         map (project [PCol i; PCount])
             (runs (sort_key (t_collations t) i)
                   (sort_by (sort_key (t_collations t) i) (t_rows t)))).
Proof.
  intros Ht Hi. unfold run_select, select_count_by_type. simpl from.
  rewrite Ht. simpl. rewrite Hi. reflexivity.
Qed.

Lemma collated_binary (v : value) : collated Binary v = v.
Proof. by destruct v. Qed.

(** Under the default collating sequence a class holds the rows with the
    very value. *)
Lemma class_size_binary (i : nat) (k : value) (rows : list row) :
  class_size Binary i k rows
  = Z.of_nat (length (filter (fun q => item i q = k) rows)).
Proof.
  unfold class_size. do 2 f_equal. apply list_filter_iff. intros q.
  by rewrite !collated_binary.
Qed.

(** C4.  The counts of [SELECT question_type, COUNT( * ) ... GROUP BY
    question_type] add up to the number of rows of [questions]: every row
    is counted in one group and in one only.  Each reported count is the
    number of rows of the reported type (the rows whose type the collating
    sequence of the column does not tell from it: the very same value under
    the default BINARY), every reported type has at least one row, and no
    type is reported twice. *)
Theorem count_by_type_partitions_questions
    (db : database) (t : table) (i : nat) :
  find_table db (U "questions") = Some t ->
  col_index (t_columns t) (U "question_type") = Some i ->
  exists names counts,
    run_select db select_count_by_type = inr (names, counts)
    /\ total counts = Z.of_nat (length (t_rows t))
    /\ Forall (fun r => exists k,
                 r = [k; VInt (class_size (collation_of t i) i k (t_rows t))]
                 /\ 0 < class_size (collation_of t i) i k (t_rows t)) counts
    /\ NoDup (map (fun r => collated (collation_of t i) (item 0 r)) counts).
Proof.
  intros Ht Hi.
  set (key := sort_key (t_collations t) i).
  eexists _, _. split; [by apply select_count_by_type_rows|].
  pose proof (runs_sorted key _ (sort_by_sorted key (t_rows t)))
    as (Hall & Hnd & _).
  split; [|split].
  - by rewrite total_of_groups, concat_runs, sort_by_length.
  - apply Forall_forall. intros r Hr.
    apply list_elem_of_fmap in Hr as (g & -> & Hg).
    rewrite Forall_forall in Hall. destruct (Hall g Hg) as [Hne Heq].
    exists (item i (hd [] g)).
    assert (Hsize : Z.of_nat (length g)
                    = class_size (collation_of t i) i (item i (hd [] g))
                                 (t_rows t)).
    { unfold class_size. rewrite Heq at 1.
      by rewrite (sort_by_perm key (t_rows t)). }
    split; [simpl; by rewrite Hsize|].
    rewrite <- Hsize. destruct g; [done|]. simpl. lia.
  - rewrite map_map. exact Hnd.
Qed.

Lemma count_by_type_partitions_questions_witness :
  (find_table mixed_bank (U "questions") = Some mixed_questions
   /\ col_index (t_columns mixed_questions) (U "question_type") = Some 1%nat)
  /\ exists names counts,
       run_select mixed_bank select_count_by_type = inr (names, counts)
       /\ total counts = Z.of_nat (length (t_rows mixed_questions))
       /\ Forall (fun r => exists k,
                    r = [k; VInt (class_size (collation_of mixed_questions 1)
                                             1 k (t_rows mixed_questions))]
                    /\ 0 < class_size (collation_of mixed_questions 1)
                                      1 k (t_rows mixed_questions)) counts
       /\ NoDup (map (fun r => collated (collation_of mixed_questions 1)
                                        (item 0 r)) counts).
Proof.
  split; [split; reflexivity|].
  apply (count_by_type_partitions_questions mixed_bank mixed_questions 1);
    reflexivity.
Defined.

(** The counts of the mixed bank, in the order of the sorter. *)
Example count_by_type_of_mixed_bank :
  result mixed_bank select_count_by_type
  = inr [[VNull; VInt 1]; [VText (U "Essay"); VInt 1];
         [VText (U "MCQ"); VInt 2]; [VText (U "Matching"); VInt 1]].
Proof. vm_compute. reflexivity. Qed.

(** Under NOCASE the three spellings of a type are one group. *)
Example count_by_type_of_cased_bank :
  map (fun r => [collated NoCase (item 0 r); item 1 r])
      (rows_of cased_bank select_count_by_type)
  = [[VText (U "essay"); VInt 1]; [VText (U "mcq"); VInt 3]].
Proof. vm_compute. reflexivity. Qed.

(* ===================================================================== *)
(** * The statements of the scripts *)
(* ===================================================================== *)

Lemma sort_by_singletons (key : row -> value) (l : list row) :
  sort_by (fun g => key (hd [] g)) (map (fun r => [r]) l)
  = map (fun r => [r]) (sort_by key l).
Proof.
  induction l as [|r l IH]; [done|].
  unfold sort_by in *. simpl. rewrite IH.
  generalize (foldr (insert_by key) [] l). intros s.
  induction s as [|x s IHs]; simpl; [done|].
  destruct (value_leb (key r) (key x)); [done|]. by rewrite IHs.
Qed.

(** A statement without GROUP BY and without COUNT reports one row per
    selected row, in storage order or in the order of the ORDER BY column. *)
Lemma plain_result (cs : list collation) (ks : list nat) (o : option nat)
    (rows : list row) :
  map (project (map PCol ks)) (ordered cs o (groups cs None (map PCol ks) rows))
  = map (pick ks)
        match o with
        | None => rows
        | Some i => sort_by (sort_key cs i) rows
        end.
Proof.
  unfold groups.
  replace (existsb is_count (map PCol ks)) with false
    by (induction ks; simpl; auto).
  assert (Hp : forall l, map (project (map PCol ks)) (map (fun r => [r]) l)
                         = map (pick ks) l).
  { intros l. rewrite map_map. apply map_ext. intros r.
    unfold project, pick. by rewrite map_map. }
  destruct o as [i|]; simpl;
    [rewrite (sort_by_singletons (sort_key cs i))|]; apply Hp.
Qed.

Lemma holds_eq (i : nat) (v : value) (r : row) :
  holds (CEq i v) r = true <-> refers_to i v r.
Proof.
  unfold holds, refers_to; simpl.
  destruct (item i r) eqn:E, v; simpl; unfold value_eqb;
    try case_bool_decide;
    (split; [intros ?|intros [? ?]]); simplify_eq; done.
Qed.

Lemma selected_eq (i : nat) (v : value) (rows : list row) :
  selected (Some (CEq i v)) rows = filter (refers_to i v) rows.
Proof. apply list_filter_iff. intros r. apply holds_eq. Qed.

(** Name resolution, without unfolding the evaluation of the rows. *)
Ltac names :=
  cbn [from columns where_ group_by order_by limit distinct
       resolve_columns resolve_where resolve_column resolve and_then
       app limited].

Section Statements.
Context (db : database).

(** The schema table is always there. *)
Lemma select_schema_succeeds :
  exists rows, run_select db select_schema = inr ([U "sql"], rows).
Proof. eexists. reflexivity. Qed.

Section Questions.
Context (t : table) (Ht : find_table db (U "questions") = Some t).



Lemma select_samples_rows (n a b c : nat) :
  col_index (t_columns t) (U "id") = Some a ->
  col_index (t_columns t) (U "question_type") = Some b ->
  col_index (t_columns t) (U "question_text") = Some c ->
  run_select db (select_samples n)
  = inr (map (fun i => nth i (t_columns t) []) [a; b; c],
         take n (map (pick [a; b; c]) (t_rows t))).
Proof.
  intros Ha Hb Hc. unfold run_select, select_samples. names.
  rewrite Ht. names. rewrite Ha, Hb, Hc. names.
  by rewrite (plain_result (t_collations t) [a; b; c] None).
Qed.

Lemma select_first_question_rows (a : nat) :
  col_index (t_columns t) (U "id") = Some a ->
  run_select db select_first_question
  = inr (map (fun i => nth i (t_columns t) [])
             (seq 0 (length (t_columns t))),
         map (pick (seq 0 (length (t_columns t))))
             (filter (refers_to a (VInt 1)) (t_rows t))).
Proof.
  intros Ha. unfold run_select, select_first_question. names.
  rewrite Ht. names. rewrite Ha. names.
  rewrite app_nil_r, map_map.
  rewrite (plain_result (t_collations t) (seq 0 (length (t_columns t))) None).
  by rewrite selected_eq.
Qed.

Lemma select_search_rows (p1 p2 : str) (a c : nat) :
  col_index (t_columns t) (U "id") = Some a ->
  col_index (t_columns t) (U "question_text") = Some c ->
  exists e,
    resolve (t_columns t)
            (EOr (ELike (U "question_text") p1)
                 (ELike (U "question_text") p2)) = inr e
    /\ run_select db (select_search p1 p2)
       = inr (map (fun i => nth i (t_columns t) []) [a; c],
              map (pick [a; c])
                  (filter (fun r => holds e r = true) (t_rows t))).
Proof.
  intros Ha Hc. unfold run_select, select_search. names.
  rewrite Ht. names. rewrite Ha, Hc. names.
  eexists. split; [reflexivity|].
  by rewrite (plain_result (t_collations t) [a; c] None).
Qed.
End Questions.

Lemma select_options_rows (t : table) (qid : value) (a b q i : nat) :
  find_table db (U "options") = Some t ->
  col_index (t_columns t) (U "option_text") = Some a ->
  col_index (t_columns t) (U "is_correct") = Some b ->
  col_index (t_columns t) (U "question_id") = Some q ->
  col_index (t_columns t) (U "id") = Some i ->
  run_select db (select_options qid)
  = inr (map (fun i => nth i (t_columns t) []) [a; b],
         map (pick [a; b])
             (sort_by (sort_key (t_collations t) i)
                      (filter (refers_to q qid) (t_rows t)))).
Proof.
  intros Ht Ha Hb Hq Hi. unfold run_select, select_options. names.
  rewrite Ht. names. rewrite Ha, Hb, Hq, Hi. names.
  rewrite (plain_result (t_collations t) [a; b] (Some i)).
  by rewrite selected_eq.
Qed.

Lemma select_match_pairs_rows (t : table) (qid : value) (a b q : nat) :
  find_table db (U "match_pairs") = Some t ->
  col_index (t_columns t) (U "left_text") = Some a ->
  col_index (t_columns t) (U "right_text") = Some b ->
  col_index (t_columns t) (U "question_id") = Some q ->
  run_select db (select_match_pairs qid)
  = inr (map (fun i => nth i (t_columns t) []) [a; b],
         map (pick [a; b]) (filter (refers_to q qid) (t_rows t))).
Proof.
  intros Ht Ha Hb Hq. unfold run_select, select_match_pairs. names.
  rewrite Ht. names. rewrite Ha, Hb, Hq. names.
  rewrite (plain_result (t_collations t) [a; b] None).
  by rewrite selected_eq.
Qed.
End Statements.

(* ===================================================================== *)
(** * Opening a bank *)
(* ===================================================================== *)

(** C1 (amended).  When the path names nothing in the file system,
    check_db.py (and its twin check_leadership_db.py) prints "Database not
    found at: <path>" and runs to its end: nothing is raised, the exit code
    is 0, and the world is otherwise untouched (no file is created, no
    connection is acquired). *)
Theorem open_missing_path_reports_absence (w : world) (path : str) :
  fs w !! path = None ->
  check_db path w = (Returns tt, printed [not_found_line path] w)
  /\ check_leadership_db path w = (Returns tt, printed [not_found_line path] w)
  /\ exit_code (fst (check_db path w)) = 0
  /\ fs (snd (check_db path w)) = fs w.
Proof.
  intros Hnone.
  assert (H1 : check_db path w = (Returns tt, printed [not_found_line path] w)).
  { unfold check_db, bind, os_path_exists. rewrite Hnone.
    rewrite bool_decide_false by (by intros [? ?]). reflexivity. }
  split; [exact H1|]. split; [|by rewrite H1].
  unfold check_leadership_db, bind, os_path_exists. rewrite Hnone.
  rewrite bool_decide_false by (by intros [? ?]). reflexivity.
Qed.

(** X17.  The guard is [os.path.exists]: a path that names a directory
    passes it, and [sqlite3.connect] then fails with "unable to open
    database file"; check_db.py ends with that error, nothing printed and
    the world as it was. *)
Lemma guard_passes_a_directory (w : world) (path : str) :
  fs w !! path = Some Directory ->
  check_db path w = (Raises (OperationalError UnableToOpen), w).
Proof.
  intros Hdir. unfold check_db, bind, os_path_exists, sqlite3_connect.
  rewrite bool_decide_true by eauto. cbv beta iota.
  by rewrite Hdir.
Qed.

Lemma open_missing_path_reports_absence_witness :
  fs empty_world !! check_db_path = None
  /\ check_db check_db_path empty_world
     = (Returns tt, printed [not_found_line check_db_path] empty_world)
  /\ check_leadership_db check_db_path empty_world
     = (Returns tt, printed [not_found_line check_db_path] empty_world)
  /\ exit_code (fst (check_db check_db_path empty_world)) = 0
  /\ fs (snd (check_db check_db_path empty_world)) = fs empty_world.
Proof.
  split; [reflexivity|].
  apply (open_missing_path_reports_absence empty_world check_db_path).
  reflexivity.
Defined.

(** C1 (as stated).  A path that names a directory does not resolve to an
    existing file, yet the guard [os.path.exists] lets it through:
    check_db.py prints no "not found" line, [sqlite3.connect] raises
    "unable to open database file" and the exit code is 1.  The absence is
    not reported for every path that does not resolve to a file. *)
Lemma directory_is_not_reported_absent :
  ~ resolves_to_file directory_world check_db_path
  /\ fst (check_db check_db_path directory_world)
     = Raises (OperationalError UnableToOpen)
  /\ exit_code (fst (check_db check_db_path directory_world)) = 1
  /\ stdout (snd (check_db check_db_path directory_world)) = []
  /\ ~ reports_absence check_db.
Proof.
  assert (Hdir : ~ resolves_to_file directory_world check_db_path).
  { intros (n & Hn & Hne). apply Hne.
    assert (H : fs directory_world !! check_db_path = Some Directory)
      by reflexivity.
    congruence. }
  split; [exact Hdir|].
  split; [vm_compute; reflexivity|].
  split; [vm_compute; reflexivity|].
  split; [vm_compute; reflexivity|].
  intros H. specialize (H directory_world check_db_path Hdir).
  apply (f_equal fst) in H. vm_compute in H. discriminate H.
Qed.

(* ===================================================================== *)
(** * What a run does to the connection and to the file system *)
(* ===================================================================== *)

Create HintDb script.

Section Frame.
Local Open Scope script_scope.

Lemma quiet_ret {A} (a : A) : quiet (ret a).
Proof. by intros w. Qed.

Lemma quiet_raise {A} (e : exn) : quiet (@raise A e).
Proof. by intros w. Qed.

Lemma quiet_bind {A B} (m : M A) (k : A -> M B) :
  quiet m -> (forall a, quiet (k a)) -> quiet (bind m k).
Proof.
  intros Hm Hk w. unfold bind. specialize (Hm w).
  destruct (m w) as [[a|e] w']; simpl in *; [|done].
  destruct (Hk a w') as [-> ->]. done.
Qed.

Lemma quiet_for_each {A} (xs : list A) (body : A -> M unit) :
  (forall x, quiet (body x)) -> quiet (for_each xs body).
Proof.
  intros Hb. induction xs as [|x xs IH]; simpl.
  - apply quiet_ret.
  - apply quiet_bind; [apply Hb | by intros _].
Qed.

Lemma quiet_try {A} (body handler : M A) :
  quiet body -> quiet handler ->
  quiet (try_except_OperationalError body handler).
Proof.
  intros Hb Hh w. unfold try_except_OperationalError. specialize (Hb w).
  destruct (body w) as [[a|[]] w']; simpl in *; try done.
  destruct (Hh w') as [-> ->]. done.
Qed.

Lemma quiet_print (args : line) : quiet (print args).
Proof. by intros w. Qed.

Lemma quiet_execute (q : select) : quiet (execute q).
Proof.
  intros w. unfold execute.
  destruct (connection w) as [|p|] eqn:E; try done.
  destruct (fs w !! p) as [[|db|]|]; try done.
  by destruct (run_select db q) as [|[]].
Qed.

Lemma quiet_fetchall : quiet fetchall.
Proof. by intros w. Qed.

Lemma quiet_fetchone : quiet fetchone.
Proof. intros w. unfold fetchone. by destruct (cursor_rows w). Qed.

Lemma quiet_description : quiet description.
Proof. by intros w. Qed.

Lemma quiet_slice (n : nat) (v : value) : quiet (slice n v).
Proof. unfold slice. destruct (slice_to n v); [apply quiet_ret|apply quiet_raise]. Qed.

Lemma quiet_dict_zip (columns : list str) (question : option row) :
  quiet (dict_zip columns question).
Proof. destruct question; [apply quiet_ret|apply quiet_raise]. Qed.

Lemma closes_close : closes_at_end close.
Proof. by intros w. Qed.

Lemma closes_bind {A B} (m : M A) (k : A -> M B) :
  quiet m -> (forall a, closes_at_end (k a)) -> closes_at_end (bind m k).
Proof.
  intros Hm Hk w. unfold bind. destruct (Hm w) as [Hfs Hc].
  destruct (m w) as [[a|e] w']; simpl in *; [|done].
  destruct (Hk a w') as [Hfs' Hc']. rewrite Hfs', Hfs. split; [done|].
  destruct (fst (k a w')); congruence.
Qed.
End Frame.

#[local] Hint Resolve quiet_ret quiet_raise quiet_print quiet_execute
  quiet_fetchall quiet_fetchone quiet_description quiet_slice quiet_dict_zip
  closes_close : script.

(** Composite statements are decomposed along their structure. *)
Ltac frame :=
  repeat first
    [ apply closes_close
    | apply closes_bind; [|intros ?]
    | apply quiet_bind; [|intros ?]
    | apply quiet_for_each; intros ?
    | apply quiet_try
    | solve [auto with script] ].

Lemma quiet_list_distinct (field : str) : quiet (list_distinct field).
Proof. unfold list_distinct. frame. Qed.

Lemma quiet_report_head : quiet report_head.
Proof. unfold report_head. frame; apply quiet_list_distinct. Qed.

Lemma quiet_print_sample (sample : row) : quiet (print_sample sample).
Proof. unfold print_sample. frame. Qed.

Lemma quiet_print_options (options : list row) : quiet (print_options options).
Proof. unfold print_options. destruct options; frame. Qed.

Lemma quiet_print_match_pairs (matches : list row) :
  quiet (print_match_pairs matches).
Proof. unfold print_match_pairs. destruct matches; frame. Qed.

#[local] Hint Resolve quiet_list_distinct quiet_report_head quiet_print_sample
  quiet_print_options quiet_print_match_pairs : script.

(** A script that connects and then runs statements that end with
    [conn.close()]. *)
Lemma connect_then (path : str) (tail : M unit) (w : world) :
  closes_at_end tail ->
  connection w = NoConnection ->
  closed_iff_completed false path w (bind (sqlite3_connect path) (fun _ => tail) w)
  /\ fs (snd (bind (sqlite3_connect path) (fun _ => tail) w))
     = fs_after_connect path w.
Proof.
  intros Htail Hc.
  unfold closed_iff_completed, fs_after_connect, bind, sqlite3_connect.
  destruct (fs w !! path) as [[|db|]|] eqn:E; simpl.
  - split; [right|]; done.
  - match goal with |- context [tail ?w'] =>
      destruct (Htail w') as [Hfs Hcn]; destruct (tail w') as [[[]|e] w'']
    end; simpl in *; auto.
  - match goal with |- context [tail ?w'] =>
      destruct (Htail w') as [Hfs Hcn]; destruct (tail w') as [[[]|e] w'']
    end; simpl in *; auto.
  - destruct (can_create w path); simpl; [|split; [right|]; done].
    match goal with |- context [tail ?w'] =>
      destruct (Htail w') as [Hfs Hcn]; destruct (tail w') as [[[]|e] w'']
    end; simpl in *; auto.
Qed.

Lemma check_db_tail_closes :
  closes_at_end
    (report_head ;;
     print (ntext "=== SAMPLE QUESTIONS ===") ;;
     execute (select_samples 3) ;;
     samples <- fetchall ;;
     for_each samples print_sample ;;
     close)%script.
Proof. frame. Qed.

Lemma check_leadership_db_tail_closes :
  closes_at_end
    (report_head ;;
     print (ntext "=== SAMPLE QUESTIONS ===") ;;
     execute (select_samples 3) ;;
     samples <- fetchall ;;
     for_each samples print_sample_with_children ;;
     close)%script.
Proof. unfold print_sample_with_children. frame. Qed.

Lemma debug_question_tail_closes :
  closes_at_end
    (report_first_question ;;
     report_first_options ;;
     report_first_match_pairs ;;
     close)%script.
Proof.
  unfold report_first_question, report_first_options,
    report_first_match_pairs.
  frame.
Qed.

Lemma guarded_run (path : str) (tail : M unit) (w : world) :
  closes_at_end tail ->
  connection w = NoConnection ->
  let script :=
    (found <- os_path_exists path ;;
     if found then sqlite3_connect path ;; tail
     else print (not_found_line path))%script in
  closed_iff_completed true path w (script w)
  /\ fs (snd (script w)) = fs w.
Proof.
  intros Htail Hc script.
  assert (Hs : script w
               = if bool_decide (is_Some (fs w !! path))
                 then bind (sqlite3_connect path) (fun _ => tail) w
                 else print (not_found_line path) w).
  { subst script. unfold bind at 1, os_path_exists.
    by destruct (bool_decide _). }
  rewrite Hs. clear Hs script.
  destruct (fs w !! path) as [n|] eqn:E.
  - rewrite bool_decide_true by eauto.
    destruct (connect_then path tail w Htail Hc) as [H1 H2].
    split.
    + unfold closed_iff_completed in *.
      destruct (fst _); [destruct H1 as [?|(?&_)]; [by left|done]|done].
    + rewrite H2. unfold fs_after_connect. by rewrite E.
  - rewrite bool_decide_false by (by intros [? ?]).
    split; [|done]. right. simpl. by rewrite Hc.
Qed.

(** C2 (amended).  No script has a guaranteed-release construct: the
    connection is closed by the last statement, [conn.close()], and so
    exactly when the run completes.  A run that returns has closed its
    connection, or, in check_db.py and check_leadership_db.py on an absent
    path, never acquired one; a run that raises ends with the connection
    still open, or failed to acquire it. *)
Theorem connection_closed_only_on_completion (w : world) (path p1 p2 : str) :
  connection w = NoConnection ->
  closed_iff_completed true path w (check_db path w)
  /\ closed_iff_completed true path w (check_leadership_db path w)
  /\ closed_iff_completed false path w (debug_question path w)
  /\ closed_iff_completed false path w (search_question path p1 p2 w).
Proof.
  intros Hc. repeat split.
  - apply (guarded_run path _ w check_db_tail_closes Hc).
  - apply (guarded_run path _ w check_leadership_db_tail_closes Hc).
  - apply (connect_then path _ w debug_question_tail_closes Hc).
  - refine (proj1 (connect_then path _ w _ Hc)). frame.
Qed.

(** C2 (as stated).  On an existing database without a [questions] table
    the first statement on that table raises, [conn.close()] is not
    reached, and check_db.py ends with its connection open: release is not
    guaranteed on every exit path. *)
Lemma release_not_guaranteed :
  fst (check_db check_db_path bare_world)
  = Raises (OperationalError (NoSuchTable (U "questions")))
  /\ connection (snd (check_db check_db_path bare_world)) = Open check_db_path
  /\ ~ releases_on_every_exit (check_db check_db_path).
Proof.
  split; [|split].
  - vm_compute. reflexivity.
  - vm_compute. reflexivity.
  - intros H. apply (H bare_world eq_refl check_db_path).
    vm_compute. reflexivity.
Qed.

Lemma connection_closed_only_on_completion_witness :
  connection bare_world = NoConnection
  /\ closed_iff_completed true check_db_path bare_world
       (check_db check_db_path bare_world)
  /\ closed_iff_completed true check_db_path bare_world
       (check_leadership_db check_db_path bare_world)
  /\ closed_iff_completed false check_db_path bare_world
       (debug_question check_db_path bare_world)
  /\ closed_iff_completed false check_db_path bare_world
       (search_question check_db_path search_pattern_1 search_pattern_2
          bare_world).
Proof.
  split; [reflexivity|].
  apply (connection_closed_only_on_completion bare_world check_db_path
           search_pattern_1 search_pattern_2).
  reflexivity.
Defined.

(* ===================================================================== *)
(** * Writes to the storage layer *)
(* ===================================================================== *)

(** X18.  The guarded scripts leave every bank as it is: whatever the
    path names (nothing, a bank, a file that is no database, a directory)
    and however the run ends, after check_db.py and check_leadership_db.py
    every path holds the database it held before, with the content it had,
    and no path holds a database that held none.  (This is about the content
    of the banks, not about the bytes of their files or the journal SQLite
    keeps beside them.) *)
Lemma guarded_scripts_keep_every_bank (w : world) (path : str) :
  connection w = NoConnection ->
  forall p,
    bank_at (snd (check_db path w)) p = bank_at w p
    /\ bank_at (snd (check_leadership_db path w)) p = bank_at w p.
Proof.
  intros Hc p.
  assert (H1 : fs (snd (check_db path w)) = fs w)
    by apply (guarded_run path _ w check_db_tail_closes Hc).
  assert (H2 : fs (snd (check_leadership_db path w)) = fs w)
    by apply (guarded_run path _ w check_leadership_db_tail_closes Hc).
  unfold bank_at. by rewrite H1, H2.
Qed.

(** X19.  The unguarded scripts leave every bank as it is when the path
    names something: after debug_question.py and search_question.py every
    path holds the database it held before, with the content it had, however
    the run ends. *)
Lemma unguarded_scripts_keep_existing_bank (w : world) (path p1 p2 : str) :
  connection w = NoConnection ->
  is_Some (fs w !! path) ->
  forall p,
    bank_at (snd (debug_question path w)) p = bank_at w p
    /\ bank_at (snd (search_question path p1 p2 w)) p = bank_at w p.
Proof.
  intros Hc [n Hn] p.
  assert (Hfs : fs_after_connect path w = fs w)
    by (unfold fs_after_connect; by rewrite Hn).
  assert (H1 : fs (snd (debug_question path w)) = fs_after_connect path w)
    by apply (connect_then path _ w debug_question_tail_closes Hc).
  assert (H2 : fs (snd (search_question path p1 p2 w))
               = fs_after_connect path w).
  { refine (proj2 (connect_then path _ w _ Hc)). frame. }
  unfold bank_at. by rewrite H1, H2, Hfs.
Qed.

(** C3 (the code at the failing input).  debug_question.py and
    search_question.py call [sqlite3.connect] without the existence check of
    check_db.py: on a path that names nothing, in a directory where a file
    can be created, the run creates an empty database at the path and then
    stops on its first statement. *)
Theorem unguarded_open_creates_missing_source (w : world) (path p1 p2 : str) :
  connection w = NoConnection ->
  fs w !! path = None ->
  can_create w path = true ->
  fs (snd (debug_question path w)) = <[path := DbFile []]> (fs w)
  /\ fst (debug_question path w)
     = Raises (OperationalError (NoSuchTable (U "questions")))
  /\ fs (snd (search_question path p1 p2 w)) = <[path := DbFile []]> (fs w)
  /\ fst (search_question path p1 p2 w)
     = Raises (OperationalError (NoSuchTable (U "questions"))).
Proof.
  intros Hc Hnone Hcan.
  assert (Hfs : fs_after_connect path w = <[path := DbFile []]> (fs w))
    by (unfold fs_after_connect; by rewrite Hnone, Hcan).
  split; [|split; [|split]].
  - rewrite <- Hfs. apply (connect_then path _ w debug_question_tail_closes Hc).
  - unfold debug_question, report_first_question, bind, sqlite3_connect.
    rewrite Hnone, Hcan.
    simpl. unfold execute. simpl. by rewrite lookup_insert_eq.
  - rewrite <- Hfs. refine (proj2 (connect_then path _ w _ Hc)). frame.
  - unfold search_question, bind, sqlite3_connect. rewrite Hnone, Hcan.
    simpl. unfold execute. simpl. by rewrite lookup_insert_eq.
Qed.

Lemma unguarded_open_creates_missing_source_witness :
  (connection empty_world = NoConnection
   /\ fs empty_world !! debug_question_path = None
   /\ can_create empty_world debug_question_path = true)
  /\ fs (snd (debug_question debug_question_path empty_world))
     = <[debug_question_path := DbFile []]> (fs empty_world)
  /\ fst (debug_question debug_question_path empty_world)
     = Raises (OperationalError (NoSuchTable (U "questions")))
  /\ fs (snd (search_question debug_question_path search_pattern_1
                search_pattern_2 empty_world))
     = <[debug_question_path := DbFile []]> (fs empty_world)
  /\ fst (search_question debug_question_path search_pattern_1
            search_pattern_2 empty_world)
     = Raises (OperationalError (NoSuchTable (U "questions"))).
Proof.
  split; [repeat split|].
  apply (unguarded_open_creates_missing_source empty_world debug_question_path
           search_pattern_1 search_pattern_2); reflexivity.
Defined.

(* ===================================================================== *)
(** * Runs inside a session *)
(* ===================================================================== *)

Section Session.
Context (p : str) (db : database).
Local Open Scope script_scope.

Lemma run_ret {A} (a : A) : run p db (ret a) (Returns a) [] (Open p).
Proof. intros w Hc Hf. repeat split; simpl; [done|by rewrite app_nil_r]. Qed.

Lemma run_raise {A} (e : exn) : run p db (@raise A e) (Raises e) [] (Open p).
Proof. intros w Hc Hf. repeat split; simpl; [done|by rewrite app_nil_r]. Qed.

Lemma run_print (l : line) : run p db (print l) (Returns tt) [l] (Open p).
Proof. intros w Hc Hf. by repeat split. Qed.

Lemma run_close : run p db close (Returns tt) [] Closed.
Proof. intros w Hc Hf. repeat split; simpl. by rewrite app_nil_r. Qed.

Lemma run_bind {A B} (m : M A) (k : A -> M B) a l1 o l2 c :
  run p db m (Returns a) l1 (Open p) ->
  run p db (k a) o l2 c ->
  run p db (bind m k) o (l1 ++ l2) c.
Proof.
  intros Hm Hk w Hc Hf. unfold bind.
  destruct (Hm w Hc Hf) as (Ho & Hfs & Hcn & Hout).
  destruct (m w) as [o' w']; simpl in *; subst o'.
  destruct (Hk w') as (Ho' & Hfs' & Hcn' & Hout'); [done|by rewrite Hfs|].
  repeat split; [done|congruence|done|].
  by rewrite Hout', Hout, app_assoc.
Qed.

Lemma run_print_then {B} (x : line) (k : unit -> M B) o l c :
  run p db (k tt) o l c ->
  run p db (bind (print x) k) o (x :: l) c.
Proof. intros Hk. apply (run_bind _ k tt [x]); [apply run_print|done]. Qed.

Lemma run_bind_raises {A B} (m : M A) (k : A -> M B) e l c :
  run p db m (Raises e) l c ->
  run p db (bind m k) (Raises e) l c.
Proof.
  intros Hm w Hc Hf. unfold bind.
  destruct (Hm w Hc Hf) as (Ho & Hfs & Hcn & Hout).
  destruct (m w) as [o' w']; simpl in *; subst o'. by repeat split.
Qed.

(** [cursor.execute(q)] followed by [rows = cursor.fetchall()]. *)
Lemma run_query {B} (q : select) (k : list row -> M B) names rows o l c :
  run_select db q = inr (names, rows) ->
  run p db (k rows) o l c ->
  run p db (execute q ;; xs <- fetchall ;; k xs) o l c.
Proof.
  intros Hq Hk w Hc Hf. unfold bind, execute, fetchall.
  rewrite Hc, Hf, Hq. simpl.
  match goal with |- ends_with (k rows ?w') _ _ _ _ =>
    destruct (Hk w') as (Ho' & Hfs' & Hcn' & Hout'); [done..|]
  end.
  by repeat split.
Qed.

Lemma run_query_error {B} (q : select) (k : M B) e :
  run_select db q = inl e ->
  run p db (execute q ;; k) (Raises (OperationalError e)) [] (Open p).
Proof.
  intros Hq w Hc Hf. unfold bind, execute. rewrite Hc, Hf, Hq. simpl.
  repeat split; [done|by rewrite app_nil_r].
Qed.

Lemma run_for_each {A} (xs : list A) (body : A -> M unit)
    (lines : A -> list line) :
  Forall (fun x => run p db (body x) (Returns tt) (lines x) (Open p)) xs ->
  run p db (for_each xs body) (Returns tt) (concat (map lines xs)) (Open p).
Proof.
  induction 1 as [|x xs Hx _ IH]; simpl.
  - apply run_ret.
  - by eapply run_bind.
Qed.



End Session.

(** From a session to the whole script: [sqlite3.connect] on an existing
    database opens the session. *)
Lemma connect_run (path : str) (db : database) (tail : M unit) (w : world)
    o ls c :
  fs w !! path = Some (DbFile db) ->
  run path db tail o ls c ->
  ends_with (bind (sqlite3_connect path) (fun _ => tail) w) w o ls c.
Proof.
  intros Hf Ht. unfold bind, sqlite3_connect. rewrite Hf.
  match goal with |- ends_with (tail ?w') _ _ _ _ =>
    destruct (Ht w') as (Ho' & Hfs' & Hcn' & Hout'); [done..|]
  end.
  by repeat split.
Qed.

Lemma guarded_connect_run (path : str) (db : database) (tail : M unit)
    (w : world) o ls c :
  fs w !! path = Some (DbFile db) ->
  run path db tail o ls c ->
  ends_with
    ((found <- os_path_exists path ;;
      if found then sqlite3_connect path ;; tail
      else print (not_found_line path))%script w) w o ls c.
Proof.
  intros Hf Ht. unfold bind at 1, os_path_exists.
  rewrite bool_decide_true by eauto. cbv beta iota.
  by apply (connect_run path db).
Qed.

(* ===================================================================== *)
(** * The report of check_db.py *)
(* ===================================================================== *)

Lemma rows_of_inr (db : database) (q : select) names rows :
  run_select db q = inr (names, rows) -> rows_of db q = rows.
Proof. intros H. unfold rows_of. by rewrite H. Qed.

Lemma run_rows {B} (p : str) (db : database) (q : select)
    (k : list row -> M B) names rows o l c :
  run_select db q = inr (names, rows) ->
  run p db (k (rows_of db q)) o l c ->
  run p db (execute q ;; xs <- fetchall ;; k xs)%script o l c.
Proof.
  intros Hq Hk. eapply run_query; [exact Hq|].
  by rewrite <- (rows_of_inr _ _ _ _ Hq).
Qed.


Section Report.
Context (p : str) (db : database) (t : table).
Context (Ht : find_table db (U "questions") = Some t).
Local Open Scope script_scope.



Lemma run_print_sample (r : row) (s : str) :
  item 2 r = VText s ->
  run p db (print_sample r) (Returns tt) [sample_report_line r] (Open p).
Proof.
  intros Hs. unfold print_sample, sample_report_line, preview, slice.
  rewrite Hs. simpl slice_to. cbn [default from_option].
  apply (run_bind p db _ _ (VText (take preview_cap s)) [] _ [_]);
    [apply run_ret|apply run_print].
Qed.

Context (b d : nat).
Context (Hb : col_index (t_columns t) (U "question_type") = Some b).
Context (Hd : col_index (t_columns t) (U "topic") = Some d).
Context (Hsub : col_index (t_columns t) (U "subtopic") = None).

End Report.



(* ===================================================================== *)
(** * Sample questions *)
(* ===================================================================== *)

Lemma utf8_app (s1 s2 : str) : utf8 (s1 ++ s2) = utf8 s1 ++ utf8 s2.
Proof. unfold utf8. by rewrite map_app, concat_app. Qed.

(** C6.  [SELECT ... LIMIT 3] returns three rows of [questions], or all of
    them when there are fewer: each sample is the [(id, type, text)] of a
    row of the table, no row is sampled twice, and on a table without index
    the samples are the first rows in storage order.  The preview
    [qtext[:100]] of a text is its first 100 characters (the whole text when
    it is shorter), cut between characters: the UTF-8 bytes of the text are
    those of the preview followed by those of the characters left out. *)
Theorem samples_bounded_and_previews_cut_between_characters
    (p : str) (db : database) (t : table) (a b c : nat) :
  find_table db (U "questions") = Some t ->
  col_index (t_columns t) (U "id") = Some a ->
  col_index (t_columns t) (U "question_type") = Some b ->
  col_index (t_columns t) (U "question_text") = Some c ->
  (exists names samples,
      run_select db (select_samples 3) = inr (names, samples)
      /\ length samples = Nat.min 3 (length (t_rows t))
      /\ (exists chosen,
            samples = map (pick [a; b; c]) chosen /\ chosen ⊆+ t_rows t)
      /\ (unindexed db (U "questions") ->
          samples = map (pick [a; b; c]) (take 3 (t_rows t))))
  /\ (forall s : str,
        slice_to preview_cap (VText s) = Some (VText (take 100 s))
        /\ length (take 100 s) = Nat.min 100 (length s)
        /\ ((length s <= 100)%nat -> take 100 s = s)
        /\ utf8 s = utf8 (take 100 s) ++ utf8 (drop 100 s))
  /\ (forall (r : row) (s : str),
        item 2 r = VText s ->
        run p db (print_sample r) (Returns tt)
            [sample_line (item 0 r) (item 1 r) (VText (take 100 s))]
            (Open p)).
Proof.
  intros Ht Ha Hb Hc. split; [|split].
  - eexists _, _. split; [by apply (select_samples_rows db t Ht 3 a b c)|].
    rewrite <- fmap_take.
    split; [by rewrite length_map, length_take|].
    split; [|done].
    exists (take 3 (t_rows t)). split; [done|].
    apply sublist_submseteq, sublist_take.
  - intros s. split; [done|]. split; [apply length_take|].
    split; [apply take_ge|].
    by rewrite <- utf8_app, take_drop.
  - intros r s Hs.
    pose proof (run_print_sample p db r s Hs) as H.
    unfold sample_report_line, preview in H. by rewrite Hs in H.
Qed.


Lemma samples_bounded_and_previews_cut_between_characters_witness :
  (find_table mixed_bank (U "questions") = Some mixed_questions
   /\ col_index (t_columns mixed_questions) (U "id") = Some 0%nat
   /\ col_index (t_columns mixed_questions) (U "question_type") = Some 1%nat
   /\ col_index (t_columns mixed_questions) (U "question_text") = Some 3%nat)
  /\ (exists names samples,
        run_select mixed_bank (select_samples 3) = inr (names, samples)
        /\ length samples = Nat.min 3 (length (t_rows mixed_questions))
        /\ (exists chosen,
              samples = map (pick [0; 1; 3]%nat) chosen
              /\ chosen ⊆+ t_rows mixed_questions)
        /\ (unindexed mixed_bank (U "questions") ->
            samples = map (pick [0; 1; 3]%nat)
                          (take 3 (t_rows mixed_questions))))
  /\ (forall s : str,
        slice_to preview_cap (VText s) = Some (VText (take 100 s))
        /\ length (take 100 s) = Nat.min 100 (length s)
        /\ ((length s <= 100)%nat -> take 100 s = s)
        /\ utf8 s = utf8 (take 100 s) ++ utf8 (drop 100 s))
  /\ (forall (r : row) (s : str),
        item 2 r = VText s ->
        run check_db_path mixed_bank (print_sample r) (Returns tt)
            [sample_line (item 0 r) (item 1 r) (VText (take 100 s))]
            (Open check_db_path)).
Proof.
  split; [repeat split|].
  apply (samples_bounded_and_previews_cut_between_characters
           check_db_path mixed_bank mixed_questions 0 1 3); reflexivity.
Defined.

(** The third sample of the mixed bank is cut to 100 characters, each of
    two bytes in UTF-8. *)
Example preview_of_long_text :
  preview (VText (repeat 233%N 120)) = VText (repeat 233%N 100)
  /\ length (utf8 (repeat 233%N 100)) = 200%nat.
Proof. split; vm_compute; reflexivity. Qed.

(* ===================================================================== *)
(** * Options and match pairs *)
(* ===================================================================== *)

Lemma filter_refers_to_none (q : nat) (qid : value) (rows : list row) :
  Forall (fun r => item q r <> qid) rows -> filter (refers_to q qid) rows = [].
Proof.
  intros H. apply filter_none. eapply Forall_impl; [exact H|].
  intros r Hr [? _]. done.
Qed.

Section Children.
Context (p : str) (db : database).
Local Open Scope script_scope.

Lemma run_report_first_options (t : table) (a b q i : nat) :
  find_table db (U "options") = Some t ->
  col_index (t_columns t) (U "option_text") = Some a ->
  col_index (t_columns t) (U "is_correct") = Some b ->
  col_index (t_columns t) (U "question_id") = Some q ->
  col_index (t_columns t) (U "id") = Some i ->
  run p db report_first_options (Returns tt)
      [ntext "=== OPTIONS FOR QUESTION 1 ===";
       [Str [Lit (U "Options:")];
        Tuples (rows_of db (select_options (VInt 1)))]]
      (Open p).
Proof.
  intros Ht Ha Hb Hq Hi. unfold report_first_options.
  apply run_print_then.
  eapply run_rows; [by apply (select_options_rows db t _ a b q i)|].
  apply run_print.
Qed.

Lemma run_report_first_match_pairs (t : table) (a b q : nat) :
  find_table db (U "match_pairs") = Some t ->
  col_index (t_columns t) (U "left_text") = Some a ->
  col_index (t_columns t) (U "right_text") = Some b ->
  col_index (t_columns t) (U "question_id") = Some q ->
  run p db report_first_match_pairs (Returns tt)
      [ntext "=== MATCH PAIRS FOR QUESTION 1 ===";
       [Str [Lit (U "Match pairs:")];
        Tuples (rows_of db (select_match_pairs (VInt 1)))]]
      (Open p).
Proof.
  intros Ht Ha Hb Hq. unfold report_first_match_pairs.
  apply run_print_then.
  eapply run_rows; [by apply (select_match_pairs_rows db t _ a b q)|].
  apply run_print.
Qed.
End Children.

(** C7.  For a question id to which no row of [options] refers, the options
    statement succeeds with an empty result; debug_question.py prints it as
    [Options: []] and goes on. *)
Theorem no_options_is_an_empty_result
    (p : str) (db : database) (t : table) (qid : value) (a b q i : nat) :
  find_table db (U "options") = Some t ->
  col_index (t_columns t) (U "option_text") = Some a ->
  col_index (t_columns t) (U "is_correct") = Some b ->
  col_index (t_columns t) (U "question_id") = Some q ->
  col_index (t_columns t) (U "id") = Some i ->
  Forall (fun r => item q r <> qid) (t_rows t) ->
  (exists names, run_select db (select_options qid) = inr (names, []))
  /\ (qid = VInt 1 ->
      run p db report_first_options (Returns tt)
          [ntext "=== OPTIONS FOR QUESTION 1 ===";
           [Str [Lit (U "Options:")]; Tuples []]]
          (Open p)).
Proof.
  intros Ht Ha Hb Hq Hi Hnone.
  pose proof (select_options_rows db t qid a b q i Ht Ha Hb Hq Hi) as Hsel.
  rewrite (filter_refers_to_none q qid _ Hnone) in Hsel.
  split; [by eexists|].
  intros ->.
  pose proof (run_report_first_options p db t a b q i Ht Ha Hb Hq Hi) as H.
  by rewrite (rows_of_inr _ _ _ _ Hsel) in H.
Qed.

Lemma no_options_is_an_empty_result_witness :
  (find_table mixed_bank (U "options") = Some mixed_options
   /\ col_index (t_columns mixed_options) (U "option_text") = Some 2%nat
   /\ col_index (t_columns mixed_options) (U "is_correct") = Some 3%nat
   /\ col_index (t_columns mixed_options) (U "question_id") = Some 1%nat
   /\ col_index (t_columns mixed_options) (U "id") = Some 0%nat
   /\ Forall (fun r => item 1 r <> VInt 1) (t_rows mixed_options))
  /\ (exists names,
        run_select mixed_bank (select_options (VInt 1)) = inr (names, []))
  /\ (VInt 1 = VInt 1 ->
      run check_db_path mixed_bank report_first_options (Returns tt)
          [ntext "=== OPTIONS FOR QUESTION 1 ===";
           [Str [Lit (U "Options:")]; Tuples []]]
          (Open check_db_path)).
Proof.
  assert (Hnone : Forall (fun r => item 1 r <> VInt 1) (t_rows mixed_options))
    by (repeat constructor; discriminate).
  split; [repeat split; try reflexivity; exact Hnone|].
  apply (no_options_is_an_empty_result check_db_path mixed_bank
           mixed_options (VInt 1) 2 3 1 0); try reflexivity.
  exact Hnone.
Defined.

(* ===================================================================== *)
(** * The first question of debug_question.py *)
(* ===================================================================== *)

Lemma map_nth_seq {A} (l : list A) (d : A) :
  map (fun i => nth i l d) (seq 0 (length l)) = l.
Proof.
  induction l as [|x l IH]; [done|].
  simpl. f_equal. rewrite <- seq_shift, map_map. exact IH.
Qed.

Section FirstQuestion.
Context (p : str) (db : database) (t : table) (a : nat).
Context (Ht : find_table db (U "questions") = Some t).
Context (Ha : col_index (t_columns t) (U "id") = Some a).
Local Open Scope script_scope.

(** [cursor.execute(q)], [cursor.fetchone()], [cursor.description]. *)
Lemma run_first_question {B} (k : list (str * value) -> M B) o l c :
  run p db
      (q_dict <- dict_zip (t_columns t)
                   (head (rows_of db select_first_question)) ;;
       k q_dict) o l c ->
  run p db
      (execute select_first_question ;;
       question <- fetchone ;;
       columns <- description ;;
       q_dict <- dict_zip columns question ;;
       k q_dict) o l c.
Proof.
  intros Hk w Hc Hf.
  pose proof (select_first_question_rows db t Ht a Ha) as Hq.
  rewrite map_nth_seq in Hq.
  rewrite (rows_of_inr _ _ _ _ Hq) in Hk.
  unfold bind at 1 2 3. unfold execute, fetchone, description.
  rewrite Hc, Hf, Hq. cbn [cursor_rows cursor_names].
  match goal with |- context [map ?f ?l] =>
    change (map f l) with (map f l) in *; destruct (map f l) as [|r rs] eqn:E
  end.
  - match goal with |- ends_with (?m ?w') _ _ _ _ =>
      destruct (Hk w') as (Ho' & Hfs' & Hcn' & Hout'); [done..|]
    end.
    by repeat split.
  - match goal with |- ends_with (?m ?w') _ _ _ _ =>
      destruct (Hk w') as (Ho' & Hfs' & Hcn' & Hout'); [done..|]
    end.
    by repeat split.
Qed.

Lemma run_report_first_question_absent :
  Forall (fun r => item a r <> VInt 1) (t_rows t) ->
  run p db report_first_question (Raises TypeError)
      [text "=== FIRST QUESTION DATA ==="] (Open p).
Proof.
  intros Hnone. unfold report_first_question.
  apply run_print_then. apply run_first_question.
  pose proof (select_first_question_rows db t Ht a Ha) as Hq.
  rewrite (filter_refers_to_none a _ _ Hnone) in Hq.
  rewrite (rows_of_inr _ _ _ _ Hq). simpl.
  apply run_bind_raises, run_raise.
Qed.

Lemma run_report_first_question_present (r : row) :
  head (filter (refers_to a (VInt 1)) (t_rows t)) = Some r ->
  run p db report_first_question (Returns tt)
      [text "=== FIRST QUESTION DATA ===";
       [Str [Lit (U "Question data:")];
        Dict (dict (zip (t_columns t)
                        (pick (seq 0 (length (t_columns t))) r)))]]
      (Open p).
Proof.
  intros Hr. unfold report_first_question.
  apply run_print_then. apply run_first_question.
  pose proof (select_first_question_rows db t Ht a Ha) as Hq.
  rewrite (rows_of_inr _ _ _ _ Hq).
  destruct (filter _ _) as [|r' rs]; simplify_eq/=.
  eapply (run_bind p db _ _ _ [] _ [_]); [apply run_ret|apply run_print].
Qed.
End FirstQuestion.

(** C10.  When no row of [questions] has id 1, debug_question.py stops at
    [dict(zip(columns, question))] with an unhandled [TypeError]: nothing but
    the first heading is printed, the exit code is 1 and the connection
    stays open.  When the row is there and no option and no match pair
    refers to it, the script reports both as empty lists and ends
    normally. *)
Theorem absent_first_question_is_fatal
    (w : world) (path : str) (db : database) (t : table) (a : nat) :
  fs w !! path = Some (DbFile db) ->
  find_table db (U "questions") = Some t ->
  col_index (t_columns t) (U "id") = Some a ->
  (Forall (fun r => item a r <> VInt 1) (t_rows t) ->
   ends_with (debug_question path w) w
     (Raises TypeError) [text "=== FIRST QUESTION DATA ==="] (Open path)
   /\ exit_code (fst (debug_question path w)) = 1)
  /\ (forall (r : row) (to tm : table) (oa ob oq oi ma mb mq : nat),
        head (filter (refers_to a (VInt 1)) (t_rows t)) = Some r ->
        find_table db (U "options") = Some to ->
        col_index (t_columns to) (U "option_text") = Some oa ->
        col_index (t_columns to) (U "is_correct") = Some ob ->
        col_index (t_columns to) (U "question_id") = Some oq ->
        col_index (t_columns to) (U "id") = Some oi ->
        find_table db (U "match_pairs") = Some tm ->
        col_index (t_columns tm) (U "left_text") = Some ma ->
        col_index (t_columns tm) (U "right_text") = Some mb ->
        col_index (t_columns tm) (U "question_id") = Some mq ->
        Forall (fun r => item oq r <> VInt 1) (t_rows to) ->
        Forall (fun r => item mq r <> VInt 1) (t_rows tm) ->
        ends_with (debug_question path w) w (Returns tt)
          [text "=== FIRST QUESTION DATA ===";
           [Str [Lit (U "Question data:")];
            Dict (dict (zip (t_columns t)
                            (pick (seq 0 (length (t_columns t))) r)))];
           ntext "=== OPTIONS FOR QUESTION 1 ===";
           [Str [Lit (U "Options:")]; Tuples []];
           ntext "=== MATCH PAIRS FOR QUESTION 1 ===";
           [Str [Lit (U "Match pairs:")]; Tuples []]]
          Closed).
Proof.
  intros Hf Ht Ha. split.
  - intros Hnone.
    assert (Hrun : ends_with (debug_question path w) w
              (Raises TypeError) [text "=== FIRST QUESTION DATA ==="]
              (Open path)).
    { apply (connect_run path db); [done|].
      apply run_bind_raises.
      by apply (run_report_first_question_absent path db t a). }
    split; [done|]. by destruct Hrun as [-> _].
  - intros r to tm oa ob oq oi ma mb mq Hr Hto Hoa Hob Hoq Hoi
      Htm Hma Hmb Hmq Hno Hnm.
    apply (connect_run path db); [done|].
    pose proof (select_options_rows db to (VInt 1) oa ob oq oi
                  Hto Hoa Hob Hoq Hoi) as Hso.
    rewrite (filter_refers_to_none oq _ _ Hno) in Hso.
    pose proof (select_match_pairs_rows db tm (VInt 1) ma mb mq
                  Htm Hma Hmb Hmq) as Hsm.
    rewrite (filter_refers_to_none mq _ _ Hnm) in Hsm.
    pose proof (run_report_first_options path db to oa ob oq oi
                  Hto Hoa Hob Hoq Hoi) as Ho.
    rewrite (rows_of_inr _ _ _ _ Hso) in Ho.
    pose proof (run_report_first_match_pairs path db tm ma mb mq
                  Htm Hma Hmb Hmq) as Hm.
    rewrite (rows_of_inr _ _ _ _ Hsm) in Hm.
    apply (run_bind path db _ _ tt [_; _] _ [_; _; _; _]);
      [by apply (run_report_first_question_present path db t a)|].
    apply (run_bind path db _ _ tt [_; _] _ [_; _]); [exact Ho|].
    apply (run_bind path db _ _ tt [_; _] _ []); [exact Hm|].
    apply run_close.
Qed.

Lemma absent_first_question_is_fatal_witness :
  (ends_with (debug_question check_db_path renumbered_world) renumbered_world
     (Raises TypeError) [text "=== FIRST QUESTION DATA ==="]
     (Open check_db_path)
   /\ exit_code (fst (debug_question check_db_path renumbered_world)) = 1)
  /\ ends_with (debug_question check_db_path mixed_world) mixed_world
       (Returns tt)
       [text "=== FIRST QUESTION DATA ===";
        [Str [Lit (U "Question data:")];
         Dict (dict (zip (t_columns mixed_questions)
                         (pick (seq 0 (length (t_columns mixed_questions)))
                               [VInt 1; VText (U "Essay");
                                VText (U "Leadership");
                                VText (U "Describe your leadership style.")])))];
        ntext "=== OPTIONS FOR QUESTION 1 ===";
        [Str [Lit (U "Options:")]; Tuples []];
        ntext "=== MATCH PAIRS FOR QUESTION 1 ===";
        [Str [Lit (U "Match pairs:")]; Tuples []]]
       Closed.
Proof.
  split.
  - apply (absent_first_question_is_fatal renumbered_world check_db_path
             renumbered_bank renumbered_questions 0); try reflexivity.
    repeat constructor; discriminate.
  - apply (proj2 (absent_first_question_is_fatal mixed_world check_db_path
                    mixed_bank mixed_questions 0 eq_refl eq_refl eq_refl)
             _ mixed_options mixed_match_pairs 2 3 1 0 1 2 0)%nat;
      try reflexivity; repeat constructor; discriminate.
Defined.

(* ===================================================================== *)
(** * Searching question texts *)
(* ===================================================================== *)

Lemma like_percent_unfold (pat s : str) :
  like (37%N :: pat) s
  = like pat s || match s with [] => false | _ :: s' => like (37%N :: pat) s' end.
Proof. by destruct s. Qed.

(** [%] at the head: some suffix of the text matches the rest. *)
Lemma like_percent (pat s : str) :
  like (37%N :: pat) s = true
  <-> exists pre post, s = pre ++ post /\ like pat post = true.
Proof.
  induction s as [|x s IH]; rewrite like_percent_unfold.
  - rewrite orb_false_r. split.
    + intros H. by exists [], [].
    + intros (pre & post & Hs & H).
      symmetry in Hs. apply app_eq_nil in Hs as [-> ->]. done.
  - rewrite orb_true_iff, IH. split.
    + intros [H|(pre & post & -> & H)].
      * by exists [], (x :: s).
      * by exists (x :: pre), post.
    + intros ([|y pre] & post & Hs & H); simpl in Hs; simplify_eq.
      * by left.
      * right. by exists pre, post.
Qed.

Lemma like_percent_only (s : str) : like [37%N] s = true.
Proof. apply like_percent. by exists s, []; rewrite app_nil_r. Qed.

(** A wildcard-free text followed by [%]: the text is a prefix. *)
Lemma like_prefix (needle s : str) :
  wildcard_free needle ->
  like (needle ++ [37%N]) s = true
  <-> exists mid post,
        s = mid ++ post /\ map fold_case mid = map fold_case needle.
Proof.
  intros Hw. revert s. induction Hw as [|c needle [H37 H95] _ IH]; intros s.
  - simpl app. split; [|intros _; apply like_percent_only].
    intros _. by exists [], s.
  - simpl. destruct (N.eqb_spec c 37); [done|].
    destruct (N.eqb_spec c 95); [done|]. simpl.
    destruct s as [|d s].
    + split; [done|]. by intros ([|??] & ? & ? & ?).
    + rewrite andb_true_iff, IH, N.eqb_eq. split.
      * intros (Hc & mid & post & -> & Hm).
        exists (d :: mid), post. simpl. by rewrite Hm, Hc.
      * intros ([|d' mid] & post & Hs & Hm); simplify_eq/=.
        split; [done|]. by exists mid, post.
Qed.

Lemma like_contains (needle s : str) :
  wildcard_free needle ->
  like ([37%N] ++ needle ++ [37%N]) s = true <-> contains needle s.
Proof.
  intros Hw. simpl app. rewrite like_percent. unfold contains. split.
  - intros (pre & rest & -> & H).
    apply (like_prefix needle rest Hw) in H as (mid & post & -> & Hm).
    by exists pre, mid, post.
  - intros (pre & mid & post & -> & Hm).
    exists pre, (mid ++ post). split; [done|].
    apply (like_prefix needle _ Hw). by exists mid, post.
Qed.

(** C9.  The search statement returns the [(id, text)] of the rows whose
    text matches one of the two patterns, each row once and no other row (on
    a table without index, in storage order); when no row matches, the
    result is the empty list and search_question.py prints nothing and ends
    normally.  A pattern [%needle%] matches the texts that contain the
    needle. *)
Theorem search_returns_the_matches
    (w : world) (path p1 p2 : str) (db : database) (t : table) (a c : nat) :
  fs w !! path = Some (DbFile db) ->
  find_table db (U "questions") = Some t ->
  col_index (t_columns t) (U "id") = Some a ->
  col_index (t_columns t) (U "question_text") = Some c ->
  (exists hits,
      result db (select_search p1 p2) = inr (map (pick [a; c]) hits)
      /\ hits ≡ₚ filter (fun r => search_hit t p1 p2 r = true) (t_rows t)
      /\ (unindexed db (U "questions") ->
          hits = filter (fun r => search_hit t p1 p2 r = true) (t_rows t)))
  /\ (Forall (fun r => search_hit t p1 p2 r = false) (t_rows t) ->
      result db (select_search p1 p2) = inr []
      /\ ends_with (search_question path p1 p2 w) w (Returns tt) [] Closed
      /\ exit_code (fst (search_question path p1 p2 w)) = 0)
  /\ (forall (r : row) (s : str),
        col_index (t_columns t) p1 = None ->
        col_index (t_columns t) p2 = None ->
        item c r = VText s ->
        search_hit t p1 p2 r = like p1 s || like p2 s)
  /\ (forall needle s : str,
        wildcard_free needle ->
        like ([37%N] ++ needle ++ [37%N]) s = true <-> contains needle s).
Proof.
  intros Hf Ht Ha Hc.
  destruct (select_search_rows db t Ht p1 p2 a c Ha Hc) as (e & He & Hq).
  assert (Hhit : forall r, search_hit t p1 p2 r = holds e r).
  { intros r. unfold search_hit, search_clause. by rewrite He. }
  assert (Hres : result db (select_search p1 p2)
                 = inr (map (pick [a; c])
                          (filter (fun r => search_hit t p1 p2 r = true)
                                  (t_rows t)))).
  { unfold result. rewrite Hq. do 2 f_equal.
    apply list_filter_iff. intros r. by rewrite Hhit. }
  split; [by eexists|]. split; [|split].
  - intros Hnone.
    assert (Hempty : filter (fun r => holds e r = true) (t_rows t) = []).
    { apply filter_none. eapply Forall_impl; [exact Hnone|].
      intros r Hr. rewrite <- Hhit, Hr. done. }
    rewrite Hempty in Hq.
    assert (Hrun : ends_with (search_question path p1 p2 w) w
                     (Returns tt) [] Closed).
    { apply (connect_run path db); [done|].
      eapply run_query; [exact Hq|]. simpl.
      apply (run_bind path db _ _ tt [] _ []); [apply run_ret|apply run_close]. }
    split; [unfold result; by rewrite Hq|].
    split; [done|]. by destruct Hrun as [-> _].
  - intros r s H1 H2 Hs. unfold search_hit, search_clause. simpl.
    rewrite Hc, H1, H2. unfold holds. simpl. rewrite Hs. simpl.
    by destruct (like p1 s), (like p2 s).
  - apply like_contains.
Qed.

Lemma search_returns_the_matches_witness :
  (exists hits,
      result mixed_bank (select_search search_pattern_1 search_pattern_2)
      = inr (map (pick [0; 3]%nat) hits)
      /\ hits ≡ₚ filter (fun r => search_hit mixed_questions search_pattern_1
                                     search_pattern_2 r = true)
                        (t_rows mixed_questions)
      /\ (unindexed mixed_bank (U "questions") ->
          hits = filter (fun r => search_hit mixed_questions search_pattern_1
                                    search_pattern_2 r = true)
                        (t_rows mixed_questions)))
  /\ result mixed_bank (select_search (U "%zebra%") (U "%quagga%")) = inr []
  /\ ends_with
       (search_question check_db_path (U "%zebra%") (U "%quagga%") mixed_world)
       mixed_world (Returns tt) [] Closed
  /\ exit_code
       (fst (search_question check_db_path (U "%zebra%") (U "%quagga%")
               mixed_world)) = 0.
Proof.
  split.
  - apply (search_returns_the_matches mixed_world check_db_path
             search_pattern_1 search_pattern_2 mixed_bank mixed_questions
             0 3); reflexivity.
  - apply (search_returns_the_matches mixed_world check_db_path
             (U "%zebra%") (U "%quagga%") mixed_bank mixed_questions
             0 3); try reflexivity.
    repeat constructor.
Defined.

(** The search of the script on the mixed bank: its one match. *)
Example search_of_mixed_bank :
  result mixed_bank (select_search search_pattern_1 search_pattern_2)
  = inr [[VInt 4;
          VText (U "Which action strengthens professional learning?")]].
Proof. vm_compute. reflexivity. Qed.

(* ===================================================================== *)
(** * The end-to-end scenario and the order of the options *)
(* ===================================================================== *)

Lemma StronglySorted_filter {A} (R : A -> A -> Prop) (P : A -> Prop)
    `{!forall x, Decision (P x)} (l : list A) :
  StronglySorted R l -> StronglySorted R (filter P l).
Proof.
  induction 1 as [|x l Hs IH Hall]; [constructor|].
  rewrite filter_cons. destruct (decide (P x)); [|done].
  constructor; [done|].
  apply Forall_forall. intros y Hy%list_elem_of_filter.
  rewrite Forall_forall in Hall. apply Hall. by destruct Hy.
Qed.

(** *** The options as they were created *)

Lemma insert_by_last {A} (key : A -> value) (r : A) (l : list A) :
  Forall (fun x => key_lt key x r) l -> insert_by key r l = l ++ [r].
Proof.
  induction 1 as [|x l Hx _ IH]; simpl; [done|].
  unfold key_lt in Hx. by rewrite Hx, IH.
Qed.

Lemma StronglySorted_app_cross {A} (R : A -> A -> Prop) (l1 l2 : list A) :
  StronglySorted R (l1 ++ l2) -> forall x y, x ∈ l1 -> y ∈ l2 -> R x y.
Proof.
  induction l1 as [|z l1 IH]; simpl; intros Hs x y Hx Hy.
  { by apply elem_of_nil in Hx. }
  inversion Hs as [|? ? Hs' Hall]; subst.
  apply elem_of_cons in Hx as [->|Hx]; [|by apply IH].
  rewrite Forall_forall in Hall. apply Hall, elem_of_app. by right.
Qed.

(** Rows inserted with ascending ids are stored in the order of their
    insertion. *)
Lemma inserted_ascending {A} (key : A -> value) (rs acc : list A) :
  StronglySorted (key_lt key) (acc ++ rs) ->
  fold_left (fun l r => insert_by key r l) rs acc = acc ++ rs.
Proof.
  revert acc. induction rs as [|r rs IH]; intros acc Hs; simpl.
  { by rewrite app_nil_r. }
  rewrite insert_by_last.
  - rewrite IH; by rewrite <- app_assoc.
  - apply Forall_forall. intros x Hx.
    apply (StronglySorted_app_cross _ acc (r :: rs)); [done..|left].
Qed.

Lemma options_created_fields (rs : list row) :
  t_name (options_created rs) = t_name no_options
  /\ t_columns (options_created rs) = t_columns no_options
  /\ t_collations (options_created rs) = t_collations no_options
  /\ t_rows (options_created rs)
     = fold_left (fun l r => insert_by (item 0) r l) rs [].
Proof.
  unfold options_created.
  change (@nil row) with (t_rows no_options).
  generalize no_options. induction rs as [|r rs IH]; intros t; simpl; [done|].
  destruct (IH (insert_option r t)) as (-> & -> & -> & ->). done.
Qed.

Lemma key_lt_le {A} (key : A -> value) (l : list A) :
  StronglySorted (key_lt key) l -> StronglySorted (key_le key) l.
Proof.
  induction 1 as [|x l _ IH Hall]; constructor; [done|].
  eapply Forall_impl; [exact Hall|]. intros y. apply value_leb_total.
Qed.

Lemma sort_by_ext {A} (key key' : A -> value) (l : list A) :
  (forall x, key x = key' x) -> sort_by key l = sort_by key' l.
Proof.
  intros H. unfold sort_by. induction l as [|x l IH]; simpl; [done|].
  rewrite IH. generalize (foldr (insert_by key') [] l). intros s.
  induction s as [|y s IHs]; simpl; [done|]. by rewrite !H, IHs.
Qed.

(** The options statement on a bank whose options were created one after
    the other. *)
Lemma select_options_created (rs : list row) (qid : value) :
  result (bank_with_options rs) (select_options qid)
  = inr (map (pick [2; 3]%nat)
           (sort_by (item 0)
              (filter (refers_to 1 qid)
                 (fold_left (fun l r => insert_by (item 0) r l) rs [])))).
Proof.
  destruct (options_created_fields rs) as (Hn & Hcols & Hcs & Hrows).
  unfold result.
  rewrite (select_options_rows (bank_with_options rs) (options_created rs)
             qid 2 3 1 0).
  - rewrite Hrows, Hcs. do 2 f_equal. apply sort_by_ext. intros r.
    apply collated_binary.
  - unfold bank_with_options, find_table.
    change (name_eqb (U "options") (U "sqlite_master")) with false.
    cbn [find_user_table]. rewrite Hn. reflexivity.
  - by rewrite Hcols.
  - by rewrite Hcols.
  - by rewrite Hcols.
  - by rewrite Hcols.
Qed.

(** C8 (amended).  On the bank of the scenario the sample statement (with
    the limit 1 of the scenario, and with the limit 3 the scripts use)
    returns [(1, "MCQ", "What is leadership?")], the options statement
    returns [("Trait-based", 0), ("Situational", 1)] with 0 false and 1 true,
    and debug_question.py prints that list.  On every bank the options of a
    question are the rows of [options] that refer to it, sorted on
    [options.id] (the statement says ORDER BY id).  That is the order of
    their creation when the ids ascend in the order of creation, as ids that
    SQLite assigns do. *)
Theorem scenario_results_and_option_order (topic : value) :
  (result (scenario_bank topic) (select_samples 1)
   = inr [[VInt 1; VText (U "MCQ"); VText (U "What is leadership?")]]
   /\ result (scenario_bank topic) (select_samples 3)
      = inr [[VInt 1; VText (U "MCQ"); VText (U "What is leadership?")]]
   /\ result (scenario_bank topic) (select_options (VInt 1))
      = inr [[VText (U "Trait-based"); VInt 0];
             [VText (U "Situational"); VInt 1]]
   /\ map truthy [VInt 0; VInt 1] = [false; true]
   /\ ends_with
        (debug_question debug_question_path
           (world_with debug_question_path (DbFile (scenario_bank topic))))
        (world_with debug_question_path (DbFile (scenario_bank topic)))
        (Returns tt)
        [text "=== FIRST QUESTION DATA ===";
         [Str [Lit (U "Question data:")];
          Dict [(U "id", VInt 1); (U "question_type", VText (U "MCQ"));
                (U "topic", topic);
                (U "question_text", VText (U "What is leadership?"))]];
         ntext "=== OPTIONS FOR QUESTION 1 ===";
         [Str [Lit (U "Options:")];
          Tuples [[VText (U "Trait-based"); VInt 0];
                  [VText (U "Situational"); VInt 1]]];
         ntext "=== MATCH PAIRS FOR QUESTION 1 ===";
         [Str [Lit (U "Match pairs:")]; Tuples []]]
        Closed)
  /\ (forall (db : database) (t : table) (qid : value) (a b q i : nat),
        find_table db (U "options") = Some t ->
        col_index (t_columns t) (U "option_text") = Some a ->
        col_index (t_columns t) (U "is_correct") = Some b ->
        col_index (t_columns t) (U "question_id") = Some q ->
        col_index (t_columns t) (U "id") = Some i ->
        exists chosen,
          result db (select_options qid) = inr (map (pick [a; b]) chosen)
          /\ chosen ≡ₚ filter (refers_to q qid) (t_rows t)
          /\ StronglySorted (key_le (sort_key (t_collations t) i)) chosen)
  /\ (forall (rs : list row) (qid : value),
        Forall carries_id rs ->
        StronglySorted (key_lt (item 0)) rs ->
        result (bank_with_options rs) (select_options qid)
        = inr (options_as_created rs qid)).
Proof.
  split; [|split].
  - repeat split; vm_compute; reflexivity.
  - intros db t qid a b q i Ht Ha Hb Hq Hi.
    exists (sort_by (sort_key (t_collations t) i)
              (filter (refers_to q qid) (t_rows t))).
    split; [|split].
    + unfold result.
      by rewrite (select_options_rows db t qid a b q i Ht Ha Hb Hq Hi).
    + apply sort_by_perm.
    + apply sort_by_sorted.
  - intros rs qid _ Hs.
    rewrite select_options_created, (inserted_ascending (item 0) rs []) by done.
    unfold options_as_created. do 2 f_equal.
    apply sort_by_id, StronglySorted_filter. by apply key_lt_le.
Qed.

Lemma scenario_results_and_option_order_witness :
  (exists chosen,
      result mixed_bank (select_options (VInt 2))
      = inr (map (pick [2; 3]%nat) chosen)
      /\ chosen ≡ₚ filter (refers_to 1 (VInt 2)) (t_rows mixed_options)
      /\ StronglySorted (key_le (sort_key (t_collations mixed_options) 0))
                        chosen)
  /\ (Forall carries_id (t_rows scenario_options)
      /\ StronglySorted (key_lt (item 0)) (t_rows scenario_options)
      /\ result (bank_with_options (t_rows scenario_options))
                (select_options (VInt 1))
         = inr (options_as_created (t_rows scenario_options) (VInt 1))).
Proof.
  assert (Hi : Forall carries_id (t_rows scenario_options))
    by (repeat constructor; eexists; reflexivity).
  assert (Hs : StronglySorted (key_lt (item 0)) (t_rows scenario_options))
    by (repeat constructor).
  split.
  - apply (proj1 (proj2 (scenario_results_and_option_order VNull))
             mixed_bank mixed_options (VInt 2) 2 3 1 0)%nat; reflexivity.
  - split; [exact Hi|]. split; [exact Hs|].
    apply (proj2 (proj2 (scenario_results_and_option_order VNull))
             (t_rows scenario_options) (VInt 1) Hi Hs).
Defined.

(** C8 (as stated).  The two options of the scenario created in the order
    ("Trait-based", false), ("Situational", true), the first with id 7 and
    the second with id 3: the options statement returns "Situational"
    first.  Options are not returned in the order of their creation on
    every bank. *)
Lemma options_follow_ids_not_creation :
  Forall carries_id options_out_of_order
  /\ NoDup (map (item 0) options_out_of_order)
  /\ options_as_created options_out_of_order (VInt 1)
     = [[VText (U "Trait-based"); VInt 0]; [VText (U "Situational"); VInt 1]]
  /\ result (bank_with_options options_out_of_order) (select_options (VInt 1))
     = inr [[VText (U "Situational"); VInt 1];
            [VText (U "Trait-based"); VInt 0]]
  /\ ~ options_in_creation_order.
Proof.
  assert (Hnd : NoDup (map (item 0) options_out_of_order)).
  { apply (bool_decide_unpack (NoDup (map (item 0) options_out_of_order))).
    vm_compute. exact I. }
  assert (Hi : Forall carries_id options_out_of_order)
    by (repeat constructor; eexists; reflexivity).
  split; [exact Hi|]. split; [exact Hnd|].
  split; [vm_compute; reflexivity|].
  split; [vm_compute; reflexivity|].
  intros H. specialize (H options_out_of_order (VInt 1) Hi Hnd).
  vm_compute in H. discriminate H.
Qed.

(** The options of the scenario, inserted in their order with the ids 1
    and 2, make the [options] table of the scenario bank. *)
Example scenario_options_as_created :
  options_created (t_rows scenario_options) = scenario_options.
Proof. vm_compute. reflexivity. Qed.

(** The options of question 2 of the mixed bank, in the order of their
    ids, although other options lie in between. *)
Example options_of_mixed_bank :
  result mixed_bank (select_options (VInt 2))
  = inr [[VText (U "Trait-based"); VInt 0]; [VText (U "Situational"); VInt 1]].
Proof. vm_compute. reflexivity. Qed.

(* ===================================================================== *)
(** * The schema section *)
(* ===================================================================== *)

Lemma schema_rows_are_the_tables (db : database) :
  map (pick [4%nat])
      (filter (refers_to 0 (VText (U "table"))) (map master_row db))
  = map (fun t => [t_sql t]) (tables_of db).
Proof.
  induction db as [|[t|i] db IH]; [done| |].
  - cbn [map tables_of]. rewrite filter_cons_True by (by split).
    cbn [map]. by rewrite IH.
  - cbn [map tables_of]. rewrite filter_cons_False; [done|].
    intros [H _]. vm_compute in H. discriminate.
Qed.

(** X1.  [SELECT sql FROM sqlite_master WHERE type='table'] succeeds on
    every database and returns the CREATE statement of each table, and of
    nothing else (the indexes of the schema are left out), in schema order;
    the result is empty exactly when the database has no table. *)
Theorem schema_lists_the_tables_only (db : database) :
  result db select_schema = inr (map (fun t => [t_sql t]) (tables_of db))
  /\ length (rows_of db select_schema) = length (tables_of db)
  /\ (rows_of db select_schema = [] <-> tables_of db = []).
Proof.
  assert (Hq : run_select db select_schema
               = inr ([U "sql"], map (fun t => [t_sql t]) (tables_of db))).
  { unfold run_select, select_schema. names.
    change (find_table db (U "sqlite_master")) with (Some (sqlite_master db)).
    cbn [t_columns sqlite_master t_rows].
    change (col_index [U "type"; U "name"; U "tbl_name"; U "rootpage"; U "sql"]
              (U "sql")) with (Some 4%nat).
    change (col_index [U "type"; U "name"; U "tbl_name"; U "rootpage"; U "sql"]
              (U "type")) with (Some 0%nat).
    names. rewrite selected_eq.
    rewrite (plain_result [] [4%nat] None).
    by rewrite schema_rows_are_the_tables. }
  unfold result. rewrite (rows_of_inr _ _ _ _ Hq), Hq.
  split; [done|]. split; [by rewrite length_map|].
  by destruct (tables_of db).
Qed.

(** The banks of the examples have no index, but for one: its index is on
    [questions] only, and the schema section does not list it. *)
Example indexes_of_the_banks :
  unindexed mixed_bank (U "questions")
  /\ unindexed mixed_bank (U "options")
  /\ unindexed mixed_bank (U "match_pairs")
  /\ indexes_on indexed_bank (U "questions") = [topic_index]
  /\ unindexed indexed_bank (U "options")
  /\ result indexed_bank select_schema = result mixed_bank select_schema.
Proof. repeat split; vm_compute; reflexivity. Qed.

(* ===================================================================== *)
(** * Distinct values *)
(* ===================================================================== *)

Section Distinct.
Context (key : row -> row).




End Distinct.



(** The topics of the mixed bank, and the types of the bank whose types
    differ by case only: one spelling of each. *)
Example distinct_of_mixed_and_cased_bank :
  result mixed_bank (select_distinct (U "topic"))
  = inr [[VText (U "Leadership")]; [VText (U "Coaching")]; [VNull]]
  /\ map (collated_row [NoCase])
         (rows_of cased_bank (select_distinct (U "question_type")))
     = [[VText (U "mcq")]; [VText (U "essay")]].
Proof. split; vm_compute; reflexivity. Qed.

(* ===================================================================== *)
(** * Sources that cannot be read *)
(* ===================================================================== *)

(** X3.  On a database without a [questions] table check_db.py and
    check_leadership_db.py print the schema section and the heading of the
    question types, then stop on "no such table: questions": the handler of
    the subtopics is not in reach, the exit code is 1, the connection stays
    open and the file is left as it is. *)
Theorem report_needs_the_questions_table
    (w : world) (path : str) (db : database) :
  fs w !! path = Some (DbFile db) ->
  find_table db (U "questions") = None ->
  ends_with (check_db path w) w
    (Raises (OperationalError (NoSuchTable (U "questions"))))
    (lines_before_questions db) (Open path)
  /\ ends_with (check_leadership_db path w) w
       (Raises (OperationalError (NoSuchTable (U "questions"))))
       (lines_before_questions db) (Open path)
  /\ exit_code (fst (check_db path w)) = 1.
Proof.
  intros Hf Hnone.
  assert (Hhead : run path db report_head
            (Raises (OperationalError (NoSuchTable (U "questions"))))
            (lines_before_questions db) (Open path)).
  { unfold report_head, lines_before_questions.
    destruct (select_schema_succeeds db) as [schema Hschema].
    apply run_print_then.
    eapply run_rows; [exact Hschema|].
    eapply run_bind.
    { apply run_for_each. apply Forall_forall. intros table _.
      apply (run_bind path db _ _ tt [_] _ [_]); apply run_print. }
    apply (run_bind path db _ _ tt [_] _ []); [apply run_print|].
    apply run_bind_raises. unfold list_distinct.
    apply run_query_error.
    unfold run_select, select_distinct. names. by rewrite Hnone. }
  assert (H1 : ends_with (check_db path w) w
            (Raises (OperationalError (NoSuchTable (U "questions"))))
            (lines_before_questions db) (Open path)).
  { apply (guarded_connect_run path db); [done|]. by apply run_bind_raises. }
  split; [exact H1|]. split; [|by destruct H1 as [-> _]].
  apply (guarded_connect_run path db); [done|]. by apply run_bind_raises.
Qed.

Lemma report_needs_the_questions_table_witness :
  (fs bare_world !! check_db_path = Some (DbFile [])
   /\ find_table [] (U "questions") = None)
  /\ ends_with (check_db check_db_path bare_world) bare_world
       (Raises (OperationalError (NoSuchTable (U "questions"))))
       (lines_before_questions []) (Open check_db_path)
  /\ ends_with (check_leadership_db check_db_path bare_world) bare_world
       (Raises (OperationalError (NoSuchTable (U "questions"))))
       (lines_before_questions []) (Open check_db_path)
  /\ exit_code (fst (check_db check_db_path bare_world)) = 1.
Proof.
  split; [split; reflexivity|].
  apply (report_needs_the_questions_table bare_world check_db_path []);
    reflexivity.
Defined.

(** X4.  A file that is not an SQLite database passes the existence check
    and [sqlite3.connect]; the first statement then raises
    [sqlite3.DatabaseError], which no script handles: each script ends with
    exit code 1 after its first heading (search_question.py after nothing),
    with the connection open and the file untouched. *)
Theorem not_a_database_is_fatal (w : world) (path p1 p2 : str) :
  fs w !! path = Some OtherFile ->
  ends_with (check_db path w) w (Raises DatabaseError)
    [text "=== DATABASE SCHEMA ==="] (Open path)
  /\ ends_with (check_leadership_db path w) w (Raises DatabaseError)
       [text "=== DATABASE SCHEMA ==="] (Open path)
  /\ ends_with (debug_question path w) w (Raises DatabaseError)
       [text "=== FIRST QUESTION DATA ==="] (Open path)
  /\ ends_with (search_question path p1 p2 w) w (Raises DatabaseError)
       [] (Open path)
  /\ exit_code (fst (check_db path w)) = 1.
Proof.
  intros Hf.
  assert (Hx : is_Some (fs w !! path)) by eauto.
  repeat split;
    unfold check_db, check_leadership_db, debug_question, search_question,
      report_head, report_first_question, bind, os_path_exists,
      sqlite3_connect, execute, print;
    rewrite ?bool_decide_true by done; cbv beta iota;
    rewrite ?Hf; cbn; rewrite ?Hf; cbn; rewrite ?app_nil_r; reflexivity.
Qed.

Lemma not_a_database_is_fatal_witness :
  fs junk_world !! check_db_path = Some OtherFile
  /\ ends_with (check_db check_db_path junk_world) junk_world
       (Raises DatabaseError) [text "=== DATABASE SCHEMA ==="]
       (Open check_db_path)
  /\ ends_with (check_leadership_db check_db_path junk_world) junk_world
       (Raises DatabaseError) [text "=== DATABASE SCHEMA ==="]
       (Open check_db_path)
  /\ ends_with (debug_question check_db_path junk_world) junk_world
       (Raises DatabaseError) [text "=== FIRST QUESTION DATA ==="]
       (Open check_db_path)
  /\ ends_with
       (search_question check_db_path search_pattern_1 search_pattern_2
          junk_world) junk_world
       (Raises DatabaseError) [] (Open check_db_path)
  /\ exit_code (fst (check_db check_db_path junk_world)) = 1.
Proof.
  split; [reflexivity|].
  apply (not_a_database_is_fatal junk_world check_db_path
           search_pattern_1 search_pattern_2).
  reflexivity.
Defined.

(** X5.  Where the path names nothing and no file can be created there
    (the directory is missing or read-only), [sqlite3.connect] of
    debug_question.py and search_question.py fails with "unable to open
    database file": nothing is created, nothing is printed, no connection
    is held. *)
Theorem unguarded_open_fails_where_nothing_can_be_created
    (w : world) (path p1 p2 : str) :
  fs w !! path = None ->
  can_create w path = false ->
  debug_question path w = (Raises (OperationalError UnableToOpen), w)
  /\ search_question path p1 p2 w = (Raises (OperationalError UnableToOpen), w).
Proof.
  intros Hnone Hcan.
  split; unfold debug_question, search_question, bind, sqlite3_connect;
    by rewrite Hnone, Hcan.
Qed.

Lemma unguarded_open_fails_where_nothing_can_be_created_witness :
  (fs sealed_world !! debug_question_path = None
   /\ can_create sealed_world debug_question_path = false)
  /\ debug_question debug_question_path sealed_world
     = (Raises (OperationalError UnableToOpen), sealed_world)
  /\ search_question debug_question_path search_pattern_1 search_pattern_2
       sealed_world
     = (Raises (OperationalError UnableToOpen), sealed_world).
Proof.
  split; [split; reflexivity|].
  apply (unguarded_open_fails_where_nothing_can_be_created sealed_world
           debug_question_path search_pattern_1 search_pattern_2);
    reflexivity.
Defined.

Lemma guard_passes_a_directory_witness :
  fs directory_world !! check_db_path = Some Directory
  /\ check_db check_db_path directory_world
     = (Raises (OperationalError UnableToOpen), directory_world).
Proof.
  split; [reflexivity|].
  apply (guard_passes_a_directory directory_world check_db_path).
  reflexivity.
Defined.

Lemma guarded_scripts_keep_every_bank_witness :
  connection mixed_world = NoConnection
  /\ forall p,
       bank_at (snd (check_db check_db_path mixed_world)) p
       = bank_at mixed_world p
       /\ bank_at (snd (check_leadership_db check_db_path mixed_world)) p
          = bank_at mixed_world p.
Proof.
  split; [reflexivity|].
  apply (guarded_scripts_keep_every_bank mixed_world check_db_path).
  reflexivity.
Defined.

Lemma unguarded_scripts_keep_existing_bank_witness :
  (connection mixed_world = NoConnection
   /\ is_Some (fs mixed_world !! check_db_path))
  /\ forall p,
       bank_at (snd (debug_question check_db_path mixed_world)) p
       = bank_at mixed_world p
       /\ bank_at (snd (search_question check_db_path search_pattern_1
                          search_pattern_2 mixed_world)) p
          = bank_at mixed_world p.
Proof.
  split; [split; [reflexivity|by eexists]|].
  apply (unguarded_scripts_keep_existing_bank mixed_world check_db_path
           search_pattern_1 search_pattern_2); [reflexivity|by eexists].
Defined.

(* ===================================================================== *)
(** * The reports in full *)
(* ===================================================================== *)

Section FullReport.
Context (p : str) (db : database) (t : table).
Context (Ht : find_table db (U "questions") = Some t).
Context (b d : nat).
Context (Hb : col_index (t_columns t) (U "question_type") = Some b).
Context (Hd : col_index (t_columns t) (U "topic") = Some d).
Local Open Scope script_scope.



End FullReport.




(** The subtopics of the detailed bank, each once. *)
Example subtopics_of_detailed_bank :
  subtopic_lines detailed_bank
  = [bullet_line [VText (U "Styles")]; bullet_line [VNull]].
Proof. vm_compute. reflexivity. Qed.

(* ===================================================================== *)
(** * The samples of check_leadership_db.py and their children *)
(* ===================================================================== *)

Section SampleBlocks.
Context (p : str) (db : database).
Local Open Scope script_scope.



Context (to tm : table) (oa ob oq oi ma mb mq : nat).
Context (Hto : find_table db (U "options") = Some to).
Context (Hoa : col_index (t_columns to) (U "option_text") = Some oa).
Context (Hob : col_index (t_columns to) (U "is_correct") = Some ob).
Context (Hoq : col_index (t_columns to) (U "question_id") = Some oq).
Context (Hoi : col_index (t_columns to) (U "id") = Some oi).
Context (Htm : find_table db (U "match_pairs") = Some tm).
Context (Hma : col_index (t_columns tm) (U "left_text") = Some ma).
Context (Hmb : col_index (t_columns tm) (U "right_text") = Some mb).
Context (Hmq : col_index (t_columns tm) (U "question_id") = Some mq).

End SampleBlocks.



(** The lines of the second sample of the mixed bank: its two options in
    the order of their ids, the correct one marked. *)
Example block_of_second_sample :
  sample_block mixed_bank
    [VInt 2; VText (U "MCQ"); VText (U "What is leadership?")]
  = [sample_line (VInt 2) (VText (U "MCQ")) (VText (U "What is leadership?"));
     [Str [Lit (U "  Options: "); Fmt (VInt 2); Lit (U " found")]];
     [Str [Lit (U "    "); Fmt (VText (U " ")); Lit (U " ");
           Fmt (VText (U "Trait-based"))]];
     [Str [Lit (U "    "); Fmt (VText check_mark); Lit (U " ");
           Fmt (VText (U "Situational"))]];
     []].
Proof. vm_compute. reflexivity. Qed.



(* ===================================================================== *)
(** * The matches of search_question.py *)
(* ===================================================================== *)



(** The search of the mixed bank for "leadership" or "coaching": three
    matches whatever the case of the letters, the last with its options. *)
Example matches_of_mixed_bank :
  map (item 0)
      (rows_of mixed_bank (select_search (U "%leadership%") (U "%coaching%")))
  = [VInt 1; VInt 2; VInt 5]
  /\ hit_block mixed_bank
       [VInt 5; VText (U "Which statement about coaching is true?")]
     = [hit_line [VInt 5; VText (U "Which statement about coaching is true?")];
        option_line "  " [VText (U "Coaching is telling"); VInt 0];
        option_line "  " [VText (U "Coaching is asking"); VInt 1];
        []].
Proof. split; vm_compute; reflexivity. Qed.

(** ** Case *)

Ltac case_bounds :=
  repeat (match goal with
          | |- context [N.leb ?a ?b] => destruct (N.leb_spec a b)
          | |- context [N.eqb ?a ?b] => destruct (N.eqb_spec a b)
          end; simpl in *);
  try done; try lia.

Lemma fold_case_idemp (c : N) : fold_case (fold_case c) = fold_case c.
Proof. unfold fold_case. case_bounds. Qed.

Lemma fold_case_keeps_wildcards (c : N) :
  (fold_case c =? 37)%N = (c =? 37)%N /\ (fold_case c =? 95)%N = (c =? 95)%N.
Proof. unfold fold_case. split; case_bounds. Qed.

Lemma map_fold_case_idemp (s : str) :
  map fold_case (map fold_case s) = map fold_case s.
Proof. rewrite map_map. apply map_ext. intros c. apply fold_case_idemp. Qed.

Lemma like_fold_text (p s : str) : like p (map fold_case s) = like p s.
Proof.
  revert s. induction p as [|c p IH]; intros s; [by destruct s|].
  destruct (N.eqb_spec c 37) as [->|Hc].
  - induction s as [|d s IHs].
    + cbn [map]. rewrite (like_percent_unfold p []). by rewrite orb_false_r.
    + cbn [map]. rewrite (like_percent_unfold p (fold_case d :: _)).
      rewrite (like_percent_unfold p (d :: s)).
      pose proof (IH (d :: s)) as Hd. cbn [map] in Hd.
      by rewrite IHs, Hd.
  - cbn [like]. destruct (N.eqb_spec c 37); [done|].
    destruct s as [|d s]; [done|]. cbn [map].
    by rewrite fold_case_idemp, IH.
Qed.

Lemma like_fold_pattern (p s : str) : like (map fold_case p) s = like p s.
Proof.
  revert s. induction p as [|c p IH]; intros s; [done|].
  destruct (fold_case_keeps_wildcards c) as [H37 H95].
  destruct (N.eqb_spec c 37) as [->|Hc].
  - cbn [map]. change (fold_case 37) with 37%N.
    induction s as [|d s IHs].
    + rewrite (like_percent_unfold (map fold_case p) []).
      rewrite (like_percent_unfold p []). by rewrite IH.
    + rewrite (like_percent_unfold (map fold_case p) (d :: s)).
      rewrite (like_percent_unfold p (d :: s)). by rewrite IHs, IH.
  - cbn [map like]. rewrite H37, H95.
    destruct (N.eqb_spec c 37); [done|].
    destruct s as [|d s]; [done|].
    by rewrite fold_case_idemp, IH.
Qed.

Lemma col_index_fold_case (cols : list str) (p : str) :
  col_index cols (map fold_case p) = col_index cols p.
Proof.
  induction cols as [|x cols IH]; [done|].
  cbn [col_index]. unfold name_eqb. by rewrite map_fold_case_idemp, IH.
Qed.

Lemma holds_like_fold_case (i : nat) (p1 p2 : str) (r : row) :
  holds (COr (CLike i (PatLiteral (map fold_case p1)))
             (CLike i (PatLiteral (map fold_case p2)))) r
  = holds (COr (CLike i (PatLiteral p1)) (CLike i (PatLiteral p2))) r.
Proof.
  unfold holds. cbn [eval].
  destruct (text_of (item i r)); [|done].
  by rewrite !like_fold_pattern.
Qed.

Lemma eval_like_fold_case (i : nat) (p : str) (r : row) :
  eval (CLike i (PatLiteral (map fold_case p))) r
  = eval (CLike i (PatLiteral p)) r.
Proof.
  cbn [eval]. destruct (text_of (item i r)); [|done].
  by rewrite like_fold_pattern.
Qed.

Lemma selected_ext (e1 e2 : cexpr) (rows : list row) :
  (forall r, eval e1 r = eval e2 r) ->
  selected (Some e1) rows = selected (Some e2) rows.
Proof.
  intros H. apply list_filter_iff. intros r. unfold holds. by rewrite H.
Qed.

Lemma resolve_search_fold_case (cols : list str) (p1 p2 : str) :
  match resolve cols (search_clause (map fold_case p1) (map fold_case p2)),
        resolve cols (search_clause p1 p2) with
  | inr e1, inr e2 => forall r, eval e1 r = eval e2 r
  | inl x1, inl x2 => x1 = x2
  | _, _ => False
  end.
Proof.
  unfold search_clause. cbn [resolve].
  destruct (col_index cols (U "question_text")) as [i|]; [|done].
  rewrite !col_index_fold_case.
  destruct (col_index cols p1), (col_index cols p2); intros r;
    change (eval (COr ?a ?b) r) with (or3 (eval a r) (eval b r));
    by rewrite ?eval_like_fold_case.
Qed.

(** X10.  The search does not tell upper-case from lower-case ASCII
    letters, in the patterns or in the texts: folding the case of both
    patterns leaves the result of the statement unchanged on every
    database, and [LIKE] gives the same answer on a text and on its
    case-folded form. *)
Theorem search_ignores_ascii_case (db : database) (p1 p2 : str) :
  result db (select_search (map fold_case p1) (map fold_case p2))
  = result db (select_search p1 p2)
  /\ (forall p s : str,
        like p (map fold_case s) = like p s
        /\ like (map fold_case p) s = like p s).
Proof.
  split; [|intros p s; split; [apply like_fold_text|apply like_fold_pattern]].
  unfold result, run_select, select_search. names.
  destruct (find_table db (U "questions")) as [t|]; [|done]. names.
  destruct (col_index (t_columns t) (U "id")) as [a|]; [|done].
  destruct (col_index (t_columns t) (U "question_text")) as [c|] eqn:Hc;
    [|done].
  names.
  pose proof (resolve_search_fold_case (t_columns t) p1 p2) as H.
  unfold search_clause in H. cbn [resolve] in H. rewrite Hc in H.
  destruct (col_index (t_columns t) (map fold_case p1)),
    (col_index (t_columns t) (map fold_case p2)),
    (col_index (t_columns t) p1), (col_index (t_columns t) p2);
    names; by rewrite (selected_ext _ _ _ H).
Qed.

Example search_of_mixed_bank_in_capitals :
  result mixed_bank (select_search (U "%LEADERSHIP%") (U "%Coaching%"))
  = result mixed_bank (select_search (U "%leadership%") (U "%coaching%")).
Proof. vm_compute. reflexivity. Qed.

(* ===================================================================== *)
(** * The data of the first question *)
(* ===================================================================== *)

Lemma dict_set_fresh {V} (k : str) (v : V) (d : list (str * V)) :
  k ∉ map fst d -> dict_set k v d = d ++ [(k, v)].
Proof.
  induction d as [|[k' v'] d IH]; [done|].
  cbn [map fst]. rewrite not_elem_of_cons. intros [Hne Hd].
  cbn [dict_set]. rewrite bool_decide_false by done.
  cbn [app]. by rewrite IH.
Qed.

Lemma dict_zip_distinct_keys {V} (ks : list str) (vs : list V) :
  NoDup ks -> dict (zip ks vs) = zip ks vs.
Proof.
  intros Hnd. unfold dict.
  enough (H : forall acc : list (str * V),
             (forall k, k ∈ ks -> k ∉ map fst acc) ->
             fold_left (fun d kv => dict_set (fst kv) (snd kv) d)
                       (zip ks vs) acc
             = acc ++ zip ks vs).
  { apply (H []). intros k _. apply not_elem_of_nil. }
  revert vs. induction Hnd as [|k ks Hk Hnd IH]; intros vs acc Hacc.
  { cbn. by rewrite app_nil_r. }
  destruct vs as [|v vs]; [cbn; by rewrite app_nil_r|].
  cbn [zip fold_left fst snd].
  rewrite dict_set_fresh by (apply Hacc; left).
  rewrite IH.
  - by rewrite <- app_assoc.
  - intros k' Hk'. rewrite map_app. cbn [map fst].
    rewrite elem_of_app, list_elem_of_singleton.
    intros [Hin | ->]; [|done].
    by apply (Hacc k'); [right|].
Qed.

Lemma pick_all (r : row) (n : nat) :
  length r = n -> pick (seq 0 n) r = r.
Proof. intros <-. unfold pick, item. apply map_nth_seq. Qed.

(** X11.  When the columns of [questions] have distinct names and every
    row has one value per column (as SQLite keeps them), the dict that
    debug_question.py prints pairs each column, in the order of the table,
    with the value stored in the first row whose id is 1. *)
Theorem first_question_dict_pairs_columns_with_values
    (p : str) (db : database) (t : table) (a : nat) (r : row) :
  find_table db (U "questions") = Some t ->
  col_index (t_columns t) (U "id") = Some a ->
  NoDup (t_columns t) ->
  Forall (fun x => length x = length (t_columns t)) (t_rows t) ->
  head (filter (refers_to a (VInt 1)) (t_rows t)) = Some r ->
  run p db report_first_question (Returns tt)
      [text "=== FIRST QUESTION DATA ===";
       [Str [Lit (U "Question data:")]; Dict (zip (t_columns t) r)]]
      (Open p)
  /\ r ∈ t_rows t
  /\ item a r = VInt 1.
Proof.
  intros Ht Ha Hnd Hlen Hr.
  assert (Hin : r ∈ filter (refers_to a (VInt 1)) (t_rows t)).
  { destruct (filter _ _) as [|x l]; simplify_eq/=. left. }
  apply list_elem_of_filter in Hin as [[Hid _] Hin].
  split; [|done].
  pose proof (run_report_first_question_present p db t a Ht Ha r Hr) as H.
  rewrite Forall_forall in Hlen.
  rewrite (pick_all r _ (Hlen r Hin)) in H.
  by rewrite (dict_zip_distinct_keys _ _ Hnd) in H.
Qed.

Lemma first_question_dict_pairs_columns_with_values_witness :
  (find_table mixed_bank (U "questions") = Some mixed_questions
   /\ col_index (t_columns mixed_questions) (U "id") = Some 0%nat
   /\ NoDup (t_columns mixed_questions)
   /\ Forall (fun x => length x = length (t_columns mixed_questions))
             (t_rows mixed_questions)
   /\ head (filter (refers_to 0 (VInt 1)) (t_rows mixed_questions))
      = Some [VInt 1; VText (U "Essay"); VText (U "Leadership");
              VText (U "Describe your leadership style.")])
  /\ run check_db_path mixed_bank report_first_question (Returns tt)
       [text "=== FIRST QUESTION DATA ===";
        [Str [Lit (U "Question data:")];
         Dict (zip (t_columns mixed_questions)
                   [VInt 1; VText (U "Essay"); VText (U "Leadership");
                    VText (U "Describe your leadership style.")])]]
       (Open check_db_path)
  /\ [VInt 1; VText (U "Essay"); VText (U "Leadership");
      VText (U "Describe your leadership style.")] ∈ t_rows mixed_questions
  /\ item 0 [VInt 1; VText (U "Essay"); VText (U "Leadership");
             VText (U "Describe your leadership style.")] = VInt 1.
Proof.
  assert (Hnd : NoDup (t_columns mixed_questions)).
  { apply (bool_decide_unpack (NoDup (t_columns mixed_questions))).
    vm_compute. exact I. }
  assert (Hlen : Forall (fun x => length x = length (t_columns mixed_questions))
                        (t_rows mixed_questions))
    by (repeat constructor).
  split; [repeat split; try reflexivity; assumption|].
  apply (first_question_dict_pairs_columns_with_values check_db_path
           mixed_bank mixed_questions 0); try reflexivity; assumption.
Defined.

(* ===================================================================== *)
(** * Children of a question *)
(* ===================================================================== *)

Lemma filter_refers_to_null (q : nat) (rows : list row) :
  filter (refers_to q VNull) rows = [].
Proof. apply filter_none, Forall_forall. by intros r _ [_ ?]. Qed.

(** X12.  The statements on [options] and [match_pairs] compare
    [question_id] with the bound id by [=], and no comparison with NULL is
    true: for a question whose id is NULL both statements succeed with an
    empty result, even when rows with a NULL [question_id] exist. *)
Theorem null_id_has_no_children
    (db : database) (to tm : table) (oa ob oq oi ma mb mq : nat) :
  find_table db (U "options") = Some to ->
  col_index (t_columns to) (U "option_text") = Some oa ->
  col_index (t_columns to) (U "is_correct") = Some ob ->
  col_index (t_columns to) (U "question_id") = Some oq ->
  col_index (t_columns to) (U "id") = Some oi ->
  find_table db (U "match_pairs") = Some tm ->
  col_index (t_columns tm) (U "left_text") = Some ma ->
  col_index (t_columns tm) (U "right_text") = Some mb ->
  col_index (t_columns tm) (U "question_id") = Some mq ->
  result db (select_options VNull) = inr []
  /\ result db (select_match_pairs VNull) = inr []
  /\ (forall sample : row,
        item 0 sample = VNull ->
        sample_block db sample = [sample_report_line sample; []]).
Proof.
  intros Hto Hoa Hob Hoq Hoi Htm Hma Hmb Hmq.
  pose proof (select_options_rows db to VNull oa ob oq oi
                Hto Hoa Hob Hoq Hoi) as Ho.
  pose proof (select_match_pairs_rows db tm VNull ma mb mq
                Htm Hma Hmb Hmq) as Hm.
  rewrite filter_refers_to_null in Ho, Hm. cbn [sort_by foldr map] in Ho, Hm.
  unfold result. rewrite Ho, Hm. split; [done|]. split; [done|].
  intros sample Hs. unfold sample_block. rewrite Hs.
  by rewrite (rows_of_inr _ _ _ _ Ho), (rows_of_inr _ _ _ _ Hm).
Qed.

Lemma null_id_has_no_children_witness :
  (find_table orphan_bank (U "options") = Some orphan_options
   /\ col_index (t_columns orphan_options) (U "option_text") = Some 2%nat
   /\ col_index (t_columns orphan_options) (U "is_correct") = Some 3%nat
   /\ col_index (t_columns orphan_options) (U "question_id") = Some 1%nat
   /\ col_index (t_columns orphan_options) (U "id") = Some 0%nat
   /\ find_table orphan_bank (U "match_pairs") = Some mixed_match_pairs
   /\ col_index (t_columns mixed_match_pairs) (U "left_text") = Some 1%nat
   /\ col_index (t_columns mixed_match_pairs) (U "right_text") = Some 2%nat
   /\ col_index (t_columns mixed_match_pairs) (U "question_id") = Some 0%nat)
  /\ result orphan_bank (select_options VNull) = inr []
  /\ result orphan_bank (select_match_pairs VNull) = inr []
  /\ (forall sample : row,
        item 0 sample = VNull ->
        sample_block orphan_bank sample = [sample_report_line sample; []]).
Proof.
  split; [repeat split|].
  apply (null_id_has_no_children orphan_bank orphan_options mixed_match_pairs
           2 3 1 0 1 2 0); reflexivity.
Defined.

(** X13.  The match pairs of a question are the rows of [match_pairs] that
    refer to it, each once and no other (the statement has no ORDER BY: on a
    table without index they come in storage order); when there are none
    the statement succeeds with the empty list, and debug_question.py prints
    [Match pairs: []]. *)
Theorem match_pairs_are_the_referring_rows
    (p : str) (db : database) (t : table) (qid : value) (a b q : nat) :
  find_table db (U "match_pairs") = Some t ->
  col_index (t_columns t) (U "left_text") = Some a ->
  col_index (t_columns t) (U "right_text") = Some b ->
  col_index (t_columns t) (U "question_id") = Some q ->
  (exists pairs,
      result db (select_match_pairs qid) = inr (map (pick [a; b]) pairs)
      /\ pairs ≡ₚ filter (refers_to q qid) (t_rows t)
      /\ (unindexed db (U "match_pairs") ->
          pairs = filter (refers_to q qid) (t_rows t)))
  /\ (Forall (fun r => item q r <> qid) (t_rows t) ->
      result db (select_match_pairs qid) = inr [])
  /\ (Forall (fun r => item q r <> VInt 1) (t_rows t) ->
      run p db report_first_match_pairs (Returns tt)
          [ntext "=== MATCH PAIRS FOR QUESTION 1 ===";
           [Str [Lit (U "Match pairs:")]; Tuples []]]
          (Open p)).
Proof.
  intros Ht Ha Hb Hq.
  assert (Hsel : forall v, run_select db (select_match_pairs v)
            = inr (map (fun i => nth i (t_columns t) []) [a; b],
                   map (pick [a; b]) (filter (refers_to q v) (t_rows t))))
    by (intros v; by apply select_match_pairs_rows).
  split.
  { exists (filter (refers_to q qid) (t_rows t)).
    split; [unfold result; by rewrite Hsel|done]. }
  split.
  - intros Hnone. unfold result.
    by rewrite Hsel, (filter_refers_to_none q qid _ Hnone).
  - intros Hnone.
    pose proof (run_report_first_match_pairs p db t a b q Ht Ha Hb Hq) as H.
    pose proof (Hsel (VInt 1)) as H1.
    rewrite (filter_refers_to_none q _ _ Hnone) in H1.
    by rewrite (rows_of_inr _ _ _ _ H1) in H.
Qed.

Lemma match_pairs_are_the_referring_rows_witness :
  (find_table mixed_bank (U "match_pairs") = Some mixed_match_pairs
   /\ col_index (t_columns mixed_match_pairs) (U "left_text") = Some 1%nat
   /\ col_index (t_columns mixed_match_pairs) (U "right_text") = Some 2%nat
   /\ col_index (t_columns mixed_match_pairs) (U "question_id") = Some 0%nat)
  /\ (exists pairs,
        result mixed_bank (select_match_pairs (VInt 3))
        = inr (map (pick [1; 2]%nat) pairs)
        /\ pairs ≡ₚ filter (refers_to 0 (VInt 3)) (t_rows mixed_match_pairs)
        /\ (unindexed mixed_bank (U "match_pairs") ->
            pairs = filter (refers_to 0 (VInt 3)) (t_rows mixed_match_pairs)))
  /\ (Forall (fun r => item 0 r <> VInt 3) (t_rows mixed_match_pairs) ->
      result mixed_bank (select_match_pairs (VInt 3)) = inr [])
  /\ (Forall (fun r => item 0 r <> VInt 1) (t_rows mixed_match_pairs) ->
      run check_db_path mixed_bank report_first_match_pairs (Returns tt)
          [ntext "=== MATCH PAIRS FOR QUESTION 1 ===";
           [Str [Lit (U "Match pairs:")]; Tuples []]]
          (Open check_db_path)).
Proof.
  split; [repeat split|].
  apply (match_pairs_are_the_referring_rows check_db_path mixed_bank
           mixed_match_pairs (VInt 3) 1 2 0); reflexivity.
Defined.

(** The pair of the matching question of the mixed bank. *)
Example match_pairs_of_mixed_bank :
  result mixed_bank (select_match_pairs (VInt 3))
  = inr [[VText (U "Coach"); VText (U "Guides")]].
Proof. vm_compute. reflexivity. Qed.

(** X14.  debug_question.py needs the [options] table even when question 1
    has no option: on a bank where the question is there and the table is
    not, it prints the data of the question and the heading of the options,
    then stops on "no such table: options", exit code 1, connection open. *)
Theorem first_question_needs_the_options_table
    (w : world) (path : str) (db : database) (t : table) (a : nat) (r : row) :
  fs w !! path = Some (DbFile db) ->
  find_table db (U "questions") = Some t ->
  col_index (t_columns t) (U "id") = Some a ->
  head (filter (refers_to a (VInt 1)) (t_rows t)) = Some r ->
  find_table db (U "options") = None ->
  ends_with (debug_question path w) w
    (Raises (OperationalError (NoSuchTable (U "options"))))
    [text "=== FIRST QUESTION DATA ===";
     [Str [Lit (U "Question data:")];
      Dict (dict (zip (t_columns t) (pick (seq 0 (length (t_columns t))) r)))];
     ntext "=== OPTIONS FOR QUESTION 1 ==="]
    (Open path)
  /\ exit_code (fst (debug_question path w)) = 1.
Proof.
  intros Hf Ht Ha Hr Hnone.
  assert (Hrun : ends_with (debug_question path w) w
            (Raises (OperationalError (NoSuchTable (U "options"))))
            [text "=== FIRST QUESTION DATA ===";
             [Str [Lit (U "Question data:")];
              Dict (dict (zip (t_columns t)
                              (pick (seq 0 (length (t_columns t))) r)))];
             ntext "=== OPTIONS FOR QUESTION 1 ==="]
            (Open path)).
  { apply (connect_run path db); [done|].
    apply (run_bind path db _ _ tt [_; _] _ [_]);
      [by apply (run_report_first_question_present path db t a)|].
    apply run_bind_raises. unfold report_first_options.
    apply (run_bind path db _ _ tt [_] _ []); [apply run_print|].
    apply run_query_error.
    unfold run_select, select_options. names. by rewrite Hnone. }
  split; [exact Hrun|]. by destruct Hrun as [-> _].
Qed.

Lemma first_question_needs_the_options_table_witness :
  (fs childless_world !! check_db_path = Some (DbFile [ObjTable mixed_questions])
   /\ find_table [ObjTable mixed_questions] (U "questions")
      = Some mixed_questions
   /\ col_index (t_columns mixed_questions) (U "id") = Some 0%nat
   /\ head (filter (refers_to 0 (VInt 1)) (t_rows mixed_questions))
      = Some [VInt 1; VText (U "Essay"); VText (U "Leadership");
              VText (U "Describe your leadership style.")]
   /\ find_table [ObjTable mixed_questions] (U "options") = None)
  /\ ends_with (debug_question check_db_path childless_world) childless_world
       (Raises (OperationalError (NoSuchTable (U "options"))))
       [text "=== FIRST QUESTION DATA ===";
        [Str [Lit (U "Question data:")];
         Dict (dict (zip (t_columns mixed_questions)
                         (pick (seq 0 (length (t_columns mixed_questions)))
                               [VInt 1; VText (U "Essay");
                                VText (U "Leadership");
                                VText (U "Describe your leadership style.")])))];
        ntext "=== OPTIONS FOR QUESTION 1 ==="]
       (Open check_db_path)
  /\ exit_code (fst (debug_question check_db_path childless_world)) = 1.
Proof.
  split; [repeat split|].
  apply (first_question_needs_the_options_table childless_world check_db_path
           [ObjTable mixed_questions] mixed_questions 0); reflexivity.
Defined.

(* ===================================================================== *)
(** * Question texts that are not text, and repeated runs *)
(* ===================================================================== *)





